(** * medic: readiness probe for Ethereum nodes

    A shallow embedding of the health evaluation of the [medic] sidecar
    (package [main] and package [clients]) and the properties of its
    specification that were checked against it.

    The repository holds several variants of the evaluator.  Each one is
    embedded in a module of its own, named after the file it comes from:

    - [Poller]   : [main.go], the loop that polls the node's own [/health];
    - [Clients]  : [clients/utils.go] and [clients/nethermind.go];
    - [Part000]  : the earlier [DetectClientType] and [NethermindHealthCheck];
    - [Part001]  : the evaluator made of [checkBlockDelta], [checkNodePeers]
                   and [checkNodeHealth];
    - [Part002]  : the evaluator [nodeHealth] on [uint64] measurements;
    - [Part004]  : the evaluator [nodeHealth] on [int] measurements, and the
                   [main] that probes the node before it listens.

    Everything the node and the operating system answer during one
    evaluation is an input (record [Node]); an evaluation returns its
    result together with the requests it sent and the lines it logged. *)

From Stdlib Require Import ZArith QArith Bool List String Ascii Lia.
Import ListNotations.

Local Open Scope string_scope.
Local Open Scope list_scope.
Local Open Scope Z_scope.

(* ================================================================= *)
(** ** Go values *)

Module Go.

(** Go's [error] interface: [None] is [nil]. *)
Definition error : Type := string.

(** What a fallible library call hands back: a value with a [nil] error,
    or an error. *)
Inductive result (A : Type) : Type :=
| Ok (a : A)
| Err (e : error).
Arguments Ok {A} a.
Arguments Err {A} e.

(** [v, err := f()] for a call returning a pointer: the libraries used
    here ([ethclient], [net/http], [retryablehttp]) return a [nil]
    pointer together with a non-[nil] error. *)
Definition go_ptr {A : Type} (r : result A) : option A * option error :=
  match r with
  | Ok a => (Some a, None)
  | Err e => (None, Some e)
  end.

(** [v, err := f()] for a call returning a plain value: [zero] comes
    with the error. *)
Definition go_val {A : Type} (zero : A) (r : result A) : A * option error :=
  match r with
  | Ok a => (a, None)
  | Err e => (zero, Some e)
  end.

(** *** Fixed-width integers *)

Definition two63 : Z := 9223372036854775808.
Definition two64 : Z := 18446744073709551616.

(** Conversion to [uint64] and to [int64] ([int] is 64 bits wide on the
    platforms the image is built for): wrap-around. *)
Definition to_uint64 (x : Z) : Z := x mod two64.
Definition to_int64 (x : Z) : Z := (x + two63) mod two64 - two63.

(** *** Package [time]

    A [Time] is a number of nanoseconds since the Unix epoch, a
    [Duration] a number of nanoseconds in the range of [int64]. *)

Definition Time : Type := Z.
Definition Duration : Type := Z.

Definition Second : Duration := 1000000000.
Definition minDuration : Duration := - two63.
Definition maxDuration : Duration := two63 - 1.

(** [time.Unix(sec, nsec)] *)
Definition time_Unix (sec nsec : Z) : Time := sec * Second + nsec.

(** [t.Sub(u)]: the difference, saturated to the range of a [Duration]. *)
Definition Time_Sub (t u : Time) : Duration :=
  let d := t - u in
  if d <? minDuration then minDuration
  else if maxDuration <? d then maxDuration
  else d.

(** *** [float64]

    A [float64] is represented by the rational number it stands for;
    rounding is not modelled.  ([Seconds] of a duration shorter than
    some weeks is exact to well under a nanosecond.) *)

Definition float64 : Type := Q.

(** [d.Seconds()] *)
Definition Seconds (d : Duration) : float64 := Qmake d 1000000000.

(** [float64(n)] for an integer [n] *)
Definition float64_of_int (n : Z) : float64 := inject_Z n.

(** [x > y] on [float64] *)
Definition float64_gt (x y : float64) : bool := negb (Qle_bool x y).

(** Truncation towards zero, the integer part of a [float64]. *)
Definition trunc (x : float64) : Z := Z.quot (Qnum x) (Zpos (Qden x)).

(** [int(x)]: the integer part; it fits for every value met here. *)
Definition int_of_float64 (x : float64) : Z := to_int64 (trunc x).

(** [uint64(x)].  When the integer part is negative the language leaves
    the result to the implementation.  [uint64_of_float64_amd64] is what
    the amd64 compiler produces for values below 2^63: the signed
    conversion instruction, its result read as unsigned.  (arm64 yields
    0 for a negative argument instead, [uint64_of_float64_arm64].) *)
Definition uint64_of_float64_amd64 (x : float64) : Z := to_uint64 (trunc x).
Definition uint64_of_float64_arm64 (x : float64) : Z :=
  if trunc x <? 0 then 0 else to_uint64 (trunc x).

(** *** Package [strings] *)

(** [strings.HasPrefix(s, prefix)] *)
Fixpoint HasPrefix (s prefix : string) : bool :=
  match prefix, s with
  | EmptyString, _ => true
  | String c p', String d s' => Ascii.eqb c d && HasPrefix s' p'
  | String _ _, EmptyString => false
  end.

(** [strings.Contains(s, substr)]: [substr] occurs somewhere in [s],
    compared byte by byte. *)
Fixpoint Contains (s substr : string) : bool :=
  HasPrefix s substr ||
  match s with
  | EmptyString => false
  | String _ s' => Contains s' substr
  end.

End Go.
Import Go.

(* ================================================================= *)
(** ** Effects of an evaluation *)

Module Eff.

(** Requests an evaluation sends to the node. *)
Inductive Query : Type :=
| EthGetBlockByNumber      (* client.BlockByNumber(ctx, nil) *)
| NetPeerCount             (* client.PeerCount(ctx) *)
| Web3ClientVersion        (* POST web3_clientVersion *)
| GetHealth.               (* GET <url>/health *)

(** zerolog's levels, and [LPrint] for the standard [log.Println]. *)
Inductive Level : Type := LInfo | LWarn | LError | LFatal | LPrint.

Inductive Event : Type :=
| Sent (q : Query)
| Logged (l : Level) (msg : string).

(** A computation either returns or panics (a [nil] dereference). *)
Inductive outcome (A : Type) : Type :=
| Returns (a : A)
| Panics.
Arguments Returns {A} a.
Arguments Panics {A}.

(** The events produced, in order, and how the computation ended. *)
Definition M (A : Type) : Type := list Event * outcome A.

Definition ret {A : Type} (a : A) : M A := ([], Returns a).

Definition bind {A B : Type} (m : M A) (k : A -> M B) : M B :=
  match m with
  | (l1, Returns a) => let (l2, r) := k a in (l1 ++ l2, r)
  | (l1, Panics) => (l1, Panics)
  end.

Definition panic {A : Type} : M A := ([], Panics).
Definition send (q : Query) : M unit := ([Sent q], Returns tt).
Definition log (l : Level) (msg : string) : M unit := ([Logged l msg], Returns tt).

(** Use of a pointer: a [nil] one panics. *)
Definition deref {A : Type} (p : option A) : M A :=
  match p with
  | Some a => ret a
  | None => panic
  end.

(** [if err != nil { k }] *)
Definition when_err (err : option error) (k : M unit) : M unit :=
  match err with
  | Some _ => k
  | None => ret tt
  end.

Definition events {A : Type} (m : M A) : list Event := fst m.
Definition result_of {A : Type} (m : M A) : outcome A := snd m.

Definition query_of (e : Event) : list Query :=
  match e with
  | Sent q => [q]
  | Logged _ _ => []
  end.

(** The requests sent, in the order they were sent. *)
Definition queries {A : Type} (m : M A) : list Query :=
  flat_map query_of (events m).

Definition logged_of (e : Event) : list (Level * string) :=
  match e with
  | Sent _ => []
  | Logged l msg => [(l, msg)]
  end.

(** The lines logged. *)
Definition logs {A : Type} (m : M A) : list (Level * string) :=
  flat_map logged_of (events m).

End Eff.
Import Eff.

Declare Scope go_scope.
Delimit Scope go_scope with go.
Notation "x <- m ;; k" := (bind m (fun x => k))
  (at level 61, m at next level, right associativity) : go_scope.
Notation "' pat <- m ;; k" := (bind m (fun x => match x with pat => k end))
  (at level 61, pat pattern, m at next level, right associativity) : go_scope.
Notation "m ;; k" := (bind m (fun _ => k))
  (at level 61, right associativity) : go_scope.
Local Open Scope go_scope.

(* ================================================================= *)
(** ** Configuration and the node under observation *)

(** The flags read through viper: [max-seconds-behind] and [min-peers],
    both declared with [pflag.Int]. *)
Record Config : Type := {
  max_seconds_behind : Z;
  min_peers : Z
}.

(** [viper.GetInt(key)] is the field itself; [viper.GetUint64(key)] casts
    it, and the cast of a negative number fails and yields 0. *)
Definition viper_GetUint64 (v : Z) : Z := if v <? 0 then 0 else v.

(** An HTTP exchange whose body is decoded from JSON, by the stage at
    which it can fail. *)
Inductive http_json (A : Type) : Type :=
| Decoded (a : A)           (* answered, read and decoded *)
| RequestFailed (e : error) (* [http.Get] / [http.Post] *)
| ReadFailed (e : error)    (* [io.ReadAll] *)
| DecodeFailed (e : error). (* [json.Unmarshal] / [Decode] *)
Arguments Decoded {A} a.
Arguments RequestFailed {A} e.
Arguments ReadFailed {A} e.
Arguments DecodeFailed {A} e.

(** The [/health] document of Nethermind, [NethermindHealth]. *)
Record HealthData : Type := {
  IsSyncing : bool;
  Errors : list string
}.

Record NodeHealthEntry : Type := {
  Data : HealthData;
  Description : string;
  EntryDuration : string;
  EntryStatus : string
}.

Record HealthEntries : Type := {
  NodeHealth : NodeHealthEntry
}.

Record NethermindHealth : Type := {
  Status : string;
  TotalDuration : string;
  Entries : HealthEntries
}.

(** What the node, the network and the clock answer during one
    evaluation. *)
Record Node : Type := {
  dial_for_block : result unit;         (* [ethclient.Dial] in the block check *)
  latest_block_time : result Z;         (* [BlockByNumber], then [Time()]: uint64 seconds *)
  now : Time;                           (* [time.Now()] *)
  dial_for_peers : result unit;         (* [ethclient.Dial] in the peer check *)
  peer_count : result Z;                (* [PeerCount]: uint64 *)
  client_version : http_json string;    (* [web3_clientVersion]: the [result] field *)
  health : http_json NethermindHealth   (* [GET /health] *)
}.

(** The lag the block check computes: [time.Now()] minus the time of the
    latest block, in seconds. *)
Definition lag_of (now_ : Time) (block_time : Z) : float64 :=
  Seconds (Time_Sub now_ (time_Unix (to_int64 block_time) 0)).

(* ================================================================= *)
(** ** Package [clients] *)

Module Clients.

(** [clients/utils.go], [DetectClientType].  The payload is a constant,
    its [json.Marshal] cannot fail; the three later stages each
    [return "", err]. *)
Definition DetectClientType (w : Node) : M (string * option error) :=
  send Web3ClientVersion ;;
  match client_version w with
  | RequestFailed e => ret ("", Some e)
  | ReadFailed e => ret ("", Some e)
  | DecodeFailed e => ret ("", Some e)
  | Decoded rpcResponse_Result =>
    if Contains rpcResponse_Result "Nethermind" then ret ("Nethermind", None)
    else if Contains rpcResponse_Result "erigon" then ret ("Erigon", None)
    else if Contains rpcResponse_Result "reth" then ret ("Reth", None)
    else ret ("Unknown", None)
  end.

(** [clients/nethermind.go], [CheckNethermindHealth].  The error of the
    last line prints the whole document; only its fixed text is kept. *)
Definition CheckNethermindHealth (w : Node) : M (bool * option error) :=
  send GetHealth ;;
  match health w with
  | RequestFailed e => ret (false, Some e)
  | ReadFailed e =>
    log LError "Failed to read the health response" ;; ret (false, Some e)
  | DecodeFailed e =>
    log LError "Failed to unmarshal the health response" ;; ret (false, Some e)
  | Decoded h =>
    if (Status h =? "Healthy")%string
       && negb (IsSyncing (Data (NodeHealth (Entries h))))
       && (List.length (Errors (Data (NodeHealth (Entries h)))) =? 0)%nat
    then ret (true, None)
    else ret (false, Some "Nethermind node is not healthy")
  end.

End Clients.

(** The earlier [clients] package. *)
Module Part000.

(** [DetectClientType]: only the Nethermind marker is tested. *)
Definition DetectClientType (w : Node) : M (string * option error) :=
  send Web3ClientVersion ;;
  match client_version w with
  | RequestFailed e => ret ("", Some e)
  | ReadFailed e => ret ("", Some e)
  | DecodeFailed e => ret ("", Some e)
  | Decoded rpcResponse_Result =>
    if Contains rpcResponse_Result "Nethermind" then ret ("Nethermind", None)
    else ret ("Unknown", None)
  end.

(** [NethermindHealthCheck]: the document, or [nil] and an error.  The
    body is decoded as it is read, so a read failure is a decoding
    failure. *)
Definition NethermindHealthCheck (w : Node)
  : M (option NethermindHealth * option error) :=
  send GetHealth ;;
  match health w with
  | RequestFailed e => ret (None, Some e)
  | ReadFailed e => ret (None, Some e)
  | DecodeFailed e => ret (None, Some e)
  | Decoded h => ret (Some h, None)
  end.

End Part000.

(* ================================================================= *)
(** ** The evaluator on [int] measurements *)

Module Part004.

(** [blockDelta].  In the branch that reports the node as too far
    behind, [err] is the error of [BlockByNumber], which is [nil]
    there. *)
Definition blockDelta (cfg : Config) (w : Node) : M (Z * option error) :=
  let '(client, err) := go_ptr (dial_for_block w) in
  match err with
  | Some _ =>
    log LError "Failed to connect to the Ethereum client" ;; ret (0, err)
  | None =>
    _ <- deref client ;;
    send EthGetBlockByNumber ;;
    let '(blockNumber, err) := go_ptr (latest_block_time w) in
    match err with
    | Some _ =>
      log LError "Failed to retrieve the latest block" ;; ret (0, err)
    | None =>
      blockNumber_Time <- deref blockNumber ;;
      let blockTimestamp := time_Unix (to_int64 blockNumber_Time) 0 in
      let currentTimestamp := now w in
      let maxSecondsBehind := max_seconds_behind cfg in
      let delta := Seconds (Time_Sub currentTimestamp blockTimestamp) in
      if float64_gt delta (float64_of_int maxSecondsBehind) then
        log LError "Node is too far behind" ;;
        ret (int_of_float64 delta, err)
      else
        ret (int_of_float64 delta, None)
    end
  end.

(** [checkNodePeers] *)
Definition checkNodePeers (cfg : Config) (w : Node) : M (Z * option error) :=
  let '(client, err) := go_ptr (dial_for_peers w) in
  match err with
  | Some _ =>
    log LError "Failed to connect to the Ethereum client" ;; ret (0, err)
  | None =>
    _ <- deref client ;;
    send NetPeerCount ;;
    let '(peerCount, err) := go_val 0 (peer_count w) in
    let count := to_int64 peerCount in
    match err with
    | Some _ =>
      log LError "Failed to retrieve the number of peers" ;; ret (0, err)
    | None =>
      let minPeers := min_peers cfg in
      if count <? minPeers then ret (count, err)
      else ret (count, None)
    end
  end.

(** [nodeHealth] *)
Definition nodeHealth (cfg : Config) (w : Node) : M bool :=
  '(blockDelta_, err) <- blockDelta cfg w ;;
  match err with
  | Some _ =>
    log LError "Failed health check by block time delta" ;; ret false
  | None =>
    '(peerCount, err) <- checkNodePeers cfg w ;;
    match err with
    | Some _ =>
      log LError "Failed health check by peer count" ;; ret false
    | None =>
      '(clientType, err) <- Clients.DetectClientType w ;;
      when_err err (log LInfo "Failed to detect the client type") ;;
      if negb (clientType =? "Nethermind")%string then
        let isNodeHealthy :=
          (min_peers cfg <=? peerCount)
          && (blockDelta_ <=? max_seconds_behind cfg) in
        log LInfo "Node health check" ;;
        ret isNodeHealthy
      else if (clientType =? "Nethermind")%string then
        '(health_, err) <- Part000.NethermindHealthCheck w ;;
        match err with
        | Some _ =>
          log LError "Failed to retrieve the Nethermind health" ;; ret false
        | None =>
          h <- deref health_ ;;
          if negb (List.length (Errors (Data (NodeHealth (Entries h)))) =? 0)%nat then
            log LError "Node health errors" ;; ret false
          else if IsSyncing (Data (NodeHealth (Entries h))) then
            log LError "Node is syncing" ;; ret false
          else
            let isNodeHealthy :=
              negb (IsSyncing (Data (NodeHealth (Entries h))))
              && (min_peers cfg <=? peerCount)
              && (blockDelta_ <=? max_seconds_behind cfg) in
            log LInfo "Node health check" ;;
            ret isNodeHealthy
        end
      else ret false
    end
  end.

(** [readinessHandler]: the status code written. *)
Definition readinessHandler (cfg : Config) (w : Node) : M Z :=
  healthy <- nodeHealth cfg w ;;
  if healthy then ret 200
  else log LWarn "Node is not healthy" ;; ret 503.

(** What [main] meets when the process starts. *)
Inductive Listen : Type :=
| BindFailed (e : error)   (* [ListenAndServe] returns at once *)
| Serves.                  (* the port is bound; requests are served *)

Record Startup : Type := {
  new_request : result unit;   (* [retryablehttp.NewRequest] *)
  first_probe : result unit;   (* [retryClient.Do], after all its retries *)
  listen : Listen              (* [http.ListenAndServe] *)
}.

(** How the process goes on after [main]: it serves, or it exits. *)
Inductive Process : Type :=
| Serving
| Exit (code : Z).

(** [main].  [Do] reads the request it is given, and
    [defer resp.Body.Close()] reads [resp]: a [nil] panics, and a panic
    of [main] ends the process. *)
Definition main (s : Startup) : M Process :=
  let '(req, err) := go_ptr (new_request s) in
  when_err err (log LError "Failed to create a new request") ;;
  _ <- deref req ;;
  let '(resp, err) := go_ptr (first_probe s) in
  when_err err (log LError "Failed to perform a new request") ;;
  _ <- deref resp ;;
  match listen s with
  | BindFailed _ =>
    log LFatal "Failed to start the server" ;; ret (Exit 1)
  | Serves => ret Serving
  end.

End Part004.

(* ================================================================= *)
(** ** The evaluator on [uint64] measurements *)

Module Part002.

Section Platform.

(** [uint64(x)] of a [float64], as the platform compiles it. *)
Variable uint64_of_float64 : float64 -> Z.

(** [blockDelta] *)
Definition blockDelta (cfg : Config) (w : Node) : M (Z * option error) :=
  let '(client, err) := go_ptr (dial_for_block w) in
  match err with
  | Some _ =>
    log LError "Failed to connect to the Ethereum client" ;; ret (0, err)
  | None =>
    _ <- deref client ;;
    send EthGetBlockByNumber ;;
    let '(blockNumber, err) := go_ptr (latest_block_time w) in
    match err with
    | Some _ =>
      log LError "Failed to retrieve the latest block" ;; ret (0, err)
    | None =>
      blockNumber_Time <- deref blockNumber ;;
      let blockTimestamp := time_Unix (to_int64 blockNumber_Time) 0 in
      let currentTimestamp := now w in
      let maxSecondsBehind := max_seconds_behind cfg in
      let delta := Seconds (Time_Sub currentTimestamp blockTimestamp) in
      if float64_gt delta (float64_of_int maxSecondsBehind) then
        log LError "Node is too far behind" ;;
        ret (uint64_of_float64 delta, err)
      else
        ret (uint64_of_float64 delta, None)
    end
  end.

(** [checkNodePeers] *)
Definition checkNodePeers (cfg : Config) (w : Node) : M (Z * option error) :=
  let '(client, err) := go_ptr (dial_for_peers w) in
  match err with
  | Some _ =>
    log LError "Failed to connect to the Ethereum client" ;; ret (0, err)
  | None =>
    _ <- deref client ;;
    send NetPeerCount ;;
    let '(peerCount, err) := go_val 0 (peer_count w) in
    match err with
    | Some _ =>
      log LError "Failed to retrieve the number of peers" ;; ret (0, err)
    | None =>
      let minPeers := viper_GetUint64 (min_peers cfg) in
      if peerCount <? minPeers then ret (peerCount, err)
      else ret (peerCount, None)
    end
  end.

(** [nodeHealth] *)
Definition nodeHealth (cfg : Config) (w : Node) : M bool :=
  '(blockDelta_, err) <- blockDelta cfg w ;;
  match err with
  | Some _ =>
    log LError "Failed health check by block time delta" ;; ret false
  | None =>
    '(peerCount, err) <- checkNodePeers cfg w ;;
    match err with
    | Some _ =>
      log LError "Failed health check by peer count" ;; ret false
    | None =>
      '(clientType, err) <- Clients.DetectClientType w ;;
      when_err err (log LInfo "Failed to detect the client type") ;;
      if negb (clientType =? "Nethermind")%string then
        log LInfo "OK" ;;
        let isNodeHealthy :=
          (to_uint64 (min_peers cfg) <=? peerCount)
          && (blockDelta_ <=? to_uint64 (max_seconds_behind cfg)) in
        ret isNodeHealthy
      else if (clientType =? "Nethermind")%string then
        '(health_, err) <- Part000.NethermindHealthCheck w ;;
        match err with
        | Some _ =>
          log LError "Failed to retrieve the Nethermind health" ;; ret false
        | None =>
          h <- deref health_ ;;
          if negb (List.length (Errors (Data (NodeHealth (Entries h)))) =? 0)%nat then
            log LError "Node health errors" ;; ret false
          else if IsSyncing (Data (NodeHealth (Entries h))) then
            log LError "Node is syncing" ;; ret false
          else
            log LInfo "OK" ;;
            let isNodeHealthy :=
              negb (IsSyncing (Data (NodeHealth (Entries h))))
              && (to_uint64 (min_peers cfg) <=? peerCount)
              && (blockDelta_ <=? to_uint64 (max_seconds_behind cfg)) in
            ret isNodeHealthy
        end
      else ret false
    end
  end.

End Platform.

End Part002.

(* ================================================================= *)
(** ** The evaluator made of boolean checks *)

Module Part001.

(** [checkBlockDelta].  Errors are logged and the function goes on:
    [client] and [blockNumber] are then [nil], and the method called
    through them panics. *)
Definition checkBlockDelta (cfg : Config) (w : Node) : M bool :=
  let '(client, err) := go_ptr (dial_for_block w) in
  when_err err (log LError "Failed to connect to the Ethereum client") ;;
  _ <- deref client ;;
  send EthGetBlockByNumber ;;
  let '(blockNumber, err) := go_ptr (latest_block_time w) in
  when_err err (log LError "Failed to retrieve the latest block") ;;
  blockNumber_Time <- deref blockNumber ;;
  let blockTimestamp := time_Unix (to_int64 blockNumber_Time) 0 in
  let currentTimestamp := now w in
  let maxSecondsBehind := max_seconds_behind cfg in
  let delta := Seconds (Time_Sub currentTimestamp blockTimestamp) in
  if float64_gt delta (float64_of_int maxSecondsBehind) then
    log LError "Node is too far behind" ;; ret false
  else ret true.

(** [checkNodePeers].  [PeerCount] hands back 0 with its error. *)
Definition checkNodePeers (cfg : Config) (w : Node) : M bool :=
  let '(client, err) := go_ptr (dial_for_peers w) in
  when_err err (log LError "Failed to connect to the Ethereum client") ;;
  _ <- deref client ;;
  send NetPeerCount ;;
  let '(peerCount, err) := go_val 0 (peer_count w) in
  when_err err (log LError "Failed to retrieve the number of peers") ;;
  let minPeers := viper_GetUint64 (min_peers cfg) in
  if peerCount <? minPeers then ret false
  else ret true.

(** [b && f()]: [f] runs only when [b] holds. *)
Definition and_then (b : bool) (f : M bool) : M bool :=
  if b then f else ret false.

(** [checkNodeHealth] *)
Definition checkNodeHealth (cfg : Config) (w : Node) : M bool :=
  '(clientType, err) <- Clients.DetectClientType w ;;
  when_err err (log LError "Error detecting client type") ;;
  isClientHealthy <-
    (if (clientType =? "Nethermind")%string then
       '(isClientHealthy, err) <- Clients.CheckNethermindHealth w ;;
       when_err err (log LError "Nethermind health check failed") ;;
       (if negb isClientHealthy
        then log LError "Nethermind node is not healthy"
        else ret tt) ;;
       ret isClientHealthy
     else if (clientType =? "Erigon")%string then ret true
     else ret true) ;;
  isNodeHealthy <-
    and_then isClientHealthy
      (blockOk <- checkBlockDelta cfg w ;;
       and_then blockOk (checkNodePeers cfg w)) ;;
  ret isNodeHealthy.

(** [readinessHandler]: the status code written.  A panic of the
    handler is caught by [net/http]: the request gets no status, the
    process goes on. *)
Definition readinessHandler (cfg : Config) (w : Node) : M Z :=
  healthy <- checkNodeHealth cfg w ;;
  if healthy then ret 200 else ret 503.

End Part001.

(* ================================================================= *)
(** ** The polling loop of [main.go] *)

Module Poller.

(** [HealthResponse], the report of the node's own [/health]. *)
Record HealthResponse : Type := {
  CheckBlock : string;
  MaxSecondsBehind : string;
  MinPeerCount : string;
  Synced : string
}.

(** [isHealthyOrDisabled] *)
Definition isHealthyOrDisabled (status : string) : bool :=
  ((status =? "HEALTHY") || (status =? "DISABLED"))%string.

(** What one turn of the loop meets. *)
Inductive Poll : Type :=
| NewRequestFailed (e : error)   (* [http.NewRequest] *)
| DoFailed (e : error)           (* [client.Do] *)
| BodyUndecoded (e : error)      (* [Decode] *)
| Report (r : HealthResponse).

(** One turn of the [for] loop of [checkNodeHealth]: the value it
    leaves in the global [isNodeHealthy].  (The headers added to the
    request do not enter the assignment.) *)
Definition checkNodeHealth_turn (p : Poll) (isNodeHealthy : bool) : M bool :=
  match p with
  | NewRequestFailed _ =>
    log LPrint "Error creating request:" ;; ret false
  | DoFailed _ =>
    send GetHealth ;;
    log LPrint "Error checking node health:" ;; ret false
  | BodyUndecoded _ =>
    send GetHealth ;;
    log LPrint "Error decoding health response:" ;; ret false
  | Report healthResponse =>
    send GetHealth ;;
    ret (isHealthyOrDisabled (Synced healthResponse)
         && isHealthyOrDisabled (MinPeerCount healthResponse)
         && isHealthyOrDisabled (MaxSecondsBehind healthResponse)
         && isHealthyOrDisabled (CheckBlock healthResponse))
  end.

(** The loop over the polls met so far, from a value of the global. *)
Fixpoint checkNodeHealth (polls : list Poll) (isNodeHealthy : bool) : M bool :=
  match polls with
  | [] => ret isNodeHealthy
  | p :: rest =>
    v <- checkNodeHealth_turn p isNodeHealthy ;;
    checkNodeHealth rest v
  end.

(** [readinessHandler] *)
Definition readinessHandler (isNodeHealthy : bool) : Z :=
  if isNodeHealthy then 200 else 503.

End Poller.

(* ================================================================= *)
(** ** The evaluator on the block time alone *)

(** The first [main] package of the file that also holds the evaluator
    on [int] measurements: [getLatestBlock], [checkNodeHealth] and
    [readinessHandler], over plain [net/http]. *)
Module BlockTime.

(** [Block], the [result] of [eth_getBlockByNumber]. *)
Record Block : Type := {
  Number : string;
  Hash : string;
  ParentHash : string;
  Nonce : string;
  Sha3Uncles : string;
  LogsBloom : string;
  TransactionsRoot : string;
  StateRoot : string;
  ReceiptsRoot : string;
  Miner : string;
  Difficulty : string;
  TotalDifficulty : string;
  ExtraData : string;
  Size : string;
  GasLimit : string;
  GasUsed : string;
  Timestamp : string;
  Transactions : list string;
  Uncles : list string
}.

(** [Block{}] *)
Definition Block_zero : Block :=
  {| Number := ""; Hash := ""; ParentHash := ""; Nonce := "";
     Sha3Uncles := ""; LogsBloom := ""; TransactionsRoot := "";
     StateRoot := ""; ReceiptsRoot := ""; Miner := ""; Difficulty := "";
     TotalDifficulty := ""; ExtraData := ""; Size := ""; GasLimit := "";
     GasUsed := ""; Timestamp := ""; Transactions := []; Uncles := [] |}.

(** The request for the latest block, by the stage at which it can
    fail. *)
Inductive Fetch : Type :=
| MarshalFailed (e : error)      (* [json.Marshal] *)
| NewRequestFailed (e : error)   (* [http.NewRequest] *)
| DoFailed (e : error)           (* [client.Do] *)
| ReadAllFailed (e : error)      (* [io.ReadAll] *)
| UnmarshalFailed (e : error)    (* [json.Unmarshal] *)
| Answered (rpcResponse_Result : Block).

(** What one evaluation meets: the answer of the node and the clock. *)
Record Observation : Type := {
  fetch : Fetch;
  clock : Time
}.

(** [getLatestBlock]: the request leaves the process once [client.Do]
    is reached. *)
Definition getLatestBlock (o : Observation) : M (Block * option error) :=
  match fetch o with
  | MarshalFailed e => ret (Block_zero, Some e)
  | NewRequestFailed e => ret (Block_zero, Some e)
  | DoFailed e => send EthGetBlockByNumber ;; ret (Block_zero, Some e)
  | ReadAllFailed e => send EthGetBlockByNumber ;; ret (Block_zero, Some e)
  | UnmarshalFailed e => send EthGetBlockByNumber ;; ret (Block_zero, Some e)
  | Answered rpcResponse_Result =>
    send EthGetBlockByNumber ;; ret (rpcResponse_Result, None)
  end.

Section Strconv.

(** [strconv.ParseInt(s, 0, 64)] *)
Variable ParseInt : string -> result Z.

(** [checkNodeHealth] *)
Definition checkNodeHealth (cfg : Config) (o : Observation) : M bool :=
  '(latestBlock, err) <- getLatestBlock o ;;
  match err with
  | Some _ => log LPrint "Error getting latest block:" ;; ret false
  | None =>
    let blockTimeHex := Timestamp latestBlock in
    let '(blockTimeSec, err) := go_val 0 (ParseInt blockTimeHex) in
    match err with
    | Some _ => log LPrint "Error parsing block timestamp:" ;; ret false
    | None =>
      let blockTime := time_Unix blockTimeSec 0 in
      let currentTime := clock o in
      let maxSecondsBehind := max_seconds_behind cfg in
      if float64_gt (Seconds (Time_Sub currentTime blockTime))
           (float64_of_int maxSecondsBehind)
      then log LPrint "ERROR: Node is too far behind" ;; ret false
      else ret true
    end
  end.

(** [readinessHandler]: the status code written. *)
Definition readinessHandler (cfg : Config) (o : Observation) : M Z :=
  healthy <- checkNodeHealth cfg o ;;
  if healthy then ret 200 else ret 503.

End Strconv.

End BlockTime.

(* ================================================================= *)
(** ** Vocabulary of the statements *)

(** [sub] occurs in [s]: the relation [strings.Contains] decides. *)
Definition Substring (sub s : string) : Prop :=
  exists pre post : string, s = (pre ++ sub ++ post)%string.

(** A node that answers every request of an evaluation: the latest block
    carries time [t], the clock shows [now_], [n] peers are connected. *)
Definition answering (t : Z) (now_ : Time) (n : Z)
    (v : http_json string) (h : http_json NethermindHealth) : Node :=
  {| dial_for_block := Ok tt;
     latest_block_time := Ok t;
     now := now_;
     dial_for_peers := Ok tt;
     peer_count := Ok n;
     client_version := v;
     health := h |}.

(** The same node with another answer to [web3_clientVersion]. *)
Definition with_version (w : Node) (v : http_json string) : Node :=
  {| dial_for_block := dial_for_block w;
     latest_block_time := latest_block_time w;
     now := now w;
     dial_for_peers := dial_for_peers w;
     peer_count := peer_count w;
     client_version := v;
     health := health w |}.

(** A [/health] document with the three fields the checks read. *)
Definition document (status : string) (syncing : bool) (errors : list string)
  : NethermindHealth :=
  {| Status := status;
     TotalDuration := "";
     Entries :=
       {| NodeHealth :=
            {| Data := {| IsSyncing := syncing; Errors := errors |};
               Description := "";
               EntryDuration := "";
               EntryStatus := "" |} |} |}.

Definition syncing_of (h : NethermindHealth) : bool :=
  IsSyncing (Data (NodeHealth (Entries h))).

Definition errors_of (h : NethermindHealth) : list string :=
  Errors (Data (NodeHealth (Entries h))).

(** The error a failed exchange carries, if it failed. *)
Definition failure_of {A : Type} (x : http_json A) : option error :=
  match x with
  | Decoded _ => None
  | RequestFailed e => Some e
  | ReadFailed e => Some e
  | DecodeFailed e => Some e
  end.

(** The block request of [w] fails: no client, or no block. *)
Definition block_query_fails (w : Node) : Prop :=
  (exists e, dial_for_block w = Err e) \/ (exists e, latest_block_time w = Err e).

(** The peer request of [w] fails. *)
Definition peer_query_fails (w : Node) : Prop :=
  (exists e, dial_for_peers w = Err e) \/ (exists e, peer_count w = Err e).

(** The version string of [w] carries the Nethermind marker. *)
Definition nethermind_detected (w : Node) : Prop :=
  exists v, client_version w = Decoded v /\ Substring "Nethermind" v.

(** The vendor part of [nodeHealth] lets the node pass: a Nethermind node
    serves a document that is not syncing and lists no error. *)
Definition vendor_passes (w : Node) : Prop :=
  nethermind_detected w ->
  exists h, health w = Decoded h /\ syncing_of h = false /\ errors_of h = [].

(** [CheckNethermindHealth] lets the node pass: the document has status
    ["Healthy"] besides. *)
Definition vendor_check_passes (w : Node) : Prop :=
  nethermind_detected w ->
  exists h, health w = Decoded h /\ Status h = "Healthy"
            /\ syncing_of h = false /\ errors_of h = [].

Definition Query_eqb (a b : Query) : bool :=
  match a, b with
  | EthGetBlockByNumber, EthGetBlockByNumber => true
  | NetPeerCount, NetPeerCount => true
  | Web3ClientVersion, Web3ClientVersion => true
  | GetHealth, GetHealth => true
  | _, _ => false
  end.

(** The requests [qs] were sent in the order of the list [order], each
    at most once (some may be missing). *)
Fixpoint follows_order (order qs : list Query) {struct order} : bool :=
  match qs with
  | [] => true
  | q :: qs' =>
    match order with
    | [] => false
    | o :: order' =>
      if Query_eqb q o then follows_order order' qs'
      else follows_order order' qs
    end
  end.

(** A field of the node's own report passes: it reads ["HEALTHY"] or
    ["DISABLED"]. *)
Definition passing (status : string) : Prop :=
  status = "HEALTHY" \/ status = "DISABLED".

(** The measurements are kept symbolic when an evaluation is unfolded. *)
Arguments Seconds : simpl never.
Arguments Time_Sub : simpl never.
Arguments time_Unix : simpl never.
Arguments float64_gt : simpl never.
Arguments float64_of_int : simpl never.
Arguments int_of_float64 : simpl never.
Arguments to_int64 : simpl never.
Arguments to_uint64 : simpl never.
Arguments viper_GetUint64 : simpl never.
Arguments Contains : simpl never.
Arguments follows_order : simpl never.
Arguments String.eqb : simpl nomatch.

(** Some configurations and nodes for the examples. *)
Module Sample.

Definition cfg30 : Config := {| max_seconds_behind := 30; min_peers := 3 |}.
Definition cfg60 : Config := {| max_seconds_behind := 60; min_peers := 3 |}.

(** The time of the latest block in the examples, and a clock [ns]
    nanoseconds after it. *)
Definition block_time : Z := 1700000000.
Definition clock_after (ns : Z) : Time := block_time * Second + ns.

Definition healthy_document : NethermindHealth := document "Healthy" false [].

(** An Erigon node with 12 peers whose latest block is [ns] nanoseconds
    old. *)
Definition erigon_lagging (ns : Z) : Node :=
  answering block_time (clock_after ns) 12
    (Decoded "erigon/2.0") (RequestFailed "404").

(** A Nethermind node with 12 peers and a block 5 s old, serving
    document [h]. *)
Definition nethermind_serving (h : NethermindHealth) : Node :=
  answering block_time (clock_after 5000000000) 12
    (Decoded "Nethermind/v1.25") (Decoded h).

(** A node in good shape whose answer to [web3_clientVersion] is lost. *)
Definition version_lost : Node :=
  answering block_time (clock_after 5000000000) 12
    (RequestFailed "timeout") (RequestFailed "timeout").

(** A node that refuses the block request. *)
Definition block_refused : Node :=
  {| dial_for_block := Ok tt;
     latest_block_time := Err "connection refused";
     now := clock_after 0;
     dial_for_peers := Ok tt;
     peer_count := Ok 12;
     client_version := Decoded "erigon/2.0";
     health := RequestFailed "404" |}.

(** A start of the process at which the node cannot be reached but the
    port is free. *)
Definition node_unreachable : Part004.Startup :=
  {| Part004.new_request := Ok tt;
     Part004.first_probe := Err "giving up after 51 attempt(s)";
     Part004.listen := Part004.Serves |}.

End Sample.

(** The composite rule in the words of the specification, to compare the
    evaluators with. *)
Module Spec.

Inductive SyncSignal : Type :=
| ConfirmedNotSyncing
| ConfirmedSyncing      (* also: a failed check *)
| UnknownSignal.

(** Steps 1 to 4 of the composite evaluator. *)
Definition verdict (cfg : Config) (lag : float64) (peers : Z)
    (signal : SyncSignal) : bool :=
  if float64_gt lag (float64_of_int (max_seconds_behind cfg)) then false
  else if peers <? min_peers cfg then false
  else match signal with
       | ConfirmedSyncing => false
       | ConfirmedNotSyncing => true
       | UnknownSignal => true
       end.

End Spec.

(* ================================================================= *)
(** ** Proof steps of the case analyses *)

(** Unfold the evaluators down to the answers of the node. *)
Ltac unfold_evaluators :=
  unfold Part004.nodeHealth, Part004.blockDelta, Part004.checkNodePeers,
    Part002.nodeHealth, Part002.blockDelta, Part002.checkNodePeers,
    Part001.checkNodeHealth, Part001.checkBlockDelta, Part001.checkNodePeers,
    Part001.and_then,
    Clients.DetectClientType, Clients.CheckNethermindHealth,
    Part000.DetectClientType, Part000.NethermindHealthCheck,
    syncing_of, errors_of, lag_of in *.

(** Case analysis on every test that decides a branch. *)
Ltac split_ifs :=
  repeat match goal with
  | |- context [if ?b then _ else _] => destruct b eqn:?; simpl
  end.

(** Case analysis on the answers of the node, the document apart. *)
Ltac node_cases w :=
  let db := fresh "db" in
  let bt := fresh "bt" in
  let nw := fresh "nw" in
  let dp := fresh "dp" in
  let pc := fresh "pc" in
  let cv := fresh "cv" in
  let hl := fresh "hl" in
  destruct w as [db bt nw dp pc cv hl];
  destruct db as [[]|?], bt as [?|?], dp as [[]|?], pc as [?|?];
  destruct cv as [?|?|?|?].

(** Case analysis on the answers an evaluation really looks at. *)
Ltac answer_cases :=
  repeat (simpl;
    match goal with
    | |- context [go_ptr ?x] => is_var x; destruct x as [[]|?]
    | |- context [go_val _ ?x] => is_var x; destruct x
    | |- context [match ?x with
                  | Decoded _ => _
                  | RequestFailed _ => _
                  | ReadFailed _ => _
                  | DecodeFailed _ => _
                  end] => is_var x; destruct x
    | |- context [if ?b then _ else _] => destruct b eqn:?
    end).

(* ================================================================= *)
(** ** Strings *)

Lemma HasPrefix_iff (s p : string) :
  HasPrefix s p = true <-> exists post, s = (p ++ post)%string.
Proof.
  revert s; induction p as [|c p IH]; intros s; simpl.
  - split; [intros _; exists s; reflexivity | intros _; destruct s; reflexivity].
  - destruct s as [|d s]; simpl.
    + split; [discriminate | intros [post H]; discriminate].
    + rewrite andb_true_iff, Ascii.eqb_eq, IH. split.
      * intros [-> [post ->]]; exists post; reflexivity.
      * intros [post H]; injection H as -> ->; split; eauto.
Qed.

Lemma Contains_iff (s sub : string) :
  Contains s sub = true <-> Substring sub s.
Proof.
  unfold Substring.
  induction s as [|c s IH].
  - change (Contains "" sub) with (HasPrefix "" sub || false).
    rewrite orb_true_iff, HasPrefix_iff. split.
    + intros [[post H]|H]; [|discriminate].
      exists "", post; exact H.
    + intros (pre & post & H). left.
      destruct pre; [exists post; exact H | discriminate].
  - change (Contains (String c s) sub)
      with (HasPrefix (String c s) sub || Contains s sub).
    rewrite orb_true_iff, HasPrefix_iff, IH. split.
    + intros [[post H]|(pre & post & H)].
      * exists "", post; exact H.
      * exists (String c pre), post; simpl; rewrite H; reflexivity.
    + intros (pre & post & H).
      destruct pre as [|d pre]; simpl in H.
      * left; exists post; exact H.
      * right; injection H as _ H; exists pre, post; exact H.
Qed.

Lemma Contains_false_iff (s sub : string) :
  Contains s sub = false <-> ~ Substring sub s.
Proof.
  rewrite <- Contains_iff. destruct (Contains s sub); split; congruence.
Qed.

(* ================================================================= *)
(** ** Computations *)

Lemma result_of_bind {A B : Type} (m : M A) (k : A -> M B) :
  result_of (bind m k) =
  match result_of m with
  | Returns a => result_of (k a)
  | Panics => Panics
  end.
Proof.
  destruct m as [l [a|]]; simpl; [|reflexivity].
  destruct (k a); reflexivity.
Qed.

(* ================================================================= *)
(** ** Client detection *)

(** C3 (counterexample).  The earlier [DetectClientType] answers
    ["Unknown"] for the version string ["erigon/2.0"], which contains the
    marker ["erigon"]: it does not yield Erigon. *)
Lemma C3_earlier_detector_misses_erigon :
  Substring "erigon" "erigon/2.0" /\
  result_of (Part000.DetectClientType (Sample.erigon_lagging 0))
    = Returns ("Unknown", None) /\
  result_of (Part000.DetectClientType (Sample.erigon_lagging 0))
    <> Returns ("Erigon", None).
Proof.
  split; [apply Contains_iff; reflexivity|].
  split; [reflexivity | discriminate].
Qed.

(** C3 (amended).  For every version string [v] that
    [web3_clientVersion] returns, [DetectClientType] of [clients/utils.go]
    looks for the markers byte by byte in the order Nethermind, erigon,
    reth, and the first one found decides: Nethermind, else Erigon, else
    Reth, else Unknown.  The earlier [DetectClientType] looks for
    ["Nethermind"] only, and every string without it yields Unknown. *)
Theorem C3_detection_by_markers (w : Node) (v : string) :
  client_version w = Decoded v ->
  (Substring "Nethermind" v ->
     result_of (Clients.DetectClientType w) = Returns ("Nethermind", None))
  /\ (~ Substring "Nethermind" v -> Substring "erigon" v ->
     result_of (Clients.DetectClientType w) = Returns ("Erigon", None))
  /\ (~ Substring "Nethermind" v -> ~ Substring "erigon" v ->
      Substring "reth" v ->
     result_of (Clients.DetectClientType w) = Returns ("Reth", None))
  /\ (~ Substring "Nethermind" v -> ~ Substring "erigon" v ->
      ~ Substring "reth" v ->
     result_of (Clients.DetectClientType w) = Returns ("Unknown", None))
  /\ (Substring "Nethermind" v ->
     result_of (Part000.DetectClientType w) = Returns ("Nethermind", None))
  /\ (~ Substring "Nethermind" v ->
     result_of (Part000.DetectClientType w) = Returns ("Unknown", None)).
Proof.
  intros Hv.
  unfold Clients.DetectClientType, Part000.DetectClientType.
  rewrite !result_of_bind, Hv; simpl.
  repeat split; intros;
    repeat match goal with
    | H : Substring _ _ |- _ => apply Contains_iff in H; rewrite H
    | H : ~ Substring _ _ |- _ => apply Contains_false_iff in H; rewrite H
    end; reflexivity.
Qed.

(** The theorem at the version string ["erigon/2.0"]. *)
Lemma C3_detection_by_markers_witness :
  result_of (Clients.DetectClientType (Sample.erigon_lagging 0))
    = Returns ("Erigon", None).
Proof.
  apply (C3_detection_by_markers (Sample.erigon_lagging 0) "erigon/2.0").
  - reflexivity.
  - apply Contains_false_iff; reflexivity.
  - apply Contains_iff; reflexivity.
Defined.

(** The markers are compared with their case: neither ["nethermind"] nor
    ["Erigon"] is recognised, and Nethermind wins over the other
    markers. *)
Example DetectClientType_cases :
  result_of (Clients.DetectClientType
               (with_version (Sample.erigon_lagging 0) (Decoded "nethermind/1.0")))
    = Returns ("Unknown", None) /\
  result_of (Clients.DetectClientType
               (with_version (Sample.erigon_lagging 0) (Decoded "Erigon/2.0")))
    = Returns ("Unknown", None) /\
  result_of (Clients.DetectClientType
               (with_version (Sample.erigon_lagging 0) (Decoded "reth-on-Nethermind")))
    = Returns ("Nethermind", None).
Proof. repeat split. Qed.

(* ================================================================= *)
(** ** The Nethermind check *)

Lemma length_eqb_0 {A : Type} (l : list A) :
  (List.length l =? 0)%nat = true <-> l = [].
Proof. destruct l; simpl; split; congruence. Qed.

(** C9.  [CheckNethermindHealth] reports the node healthy exactly when
    the status string of the document is ["Healthy"], the syncing
    boolean is false and the error list is empty; a document that is not
    syncing and lists no error but carries another status is a failed
    check. *)
Theorem C9_nethermind_check_requires_status_Healthy
    (w : Node) (h : NethermindHealth) :
  health w = Decoded h ->
  (result_of (Clients.CheckNethermindHealth w) = Returns (true, None)
   <-> Status h = "Healthy" /\ syncing_of h = false /\ errors_of h = [])
  /\ (syncing_of h = false -> errors_of h = [] -> Status h <> "Healthy" ->
      exists e,
        result_of (Clients.CheckNethermindHealth w) = Returns (false, Some e)).
Proof.
  intros Hh. unfold Clients.CheckNethermindHealth, syncing_of, errors_of.
  rewrite result_of_bind, Hh; simpl.
  set (ok := ((Status h =? "Healthy")%string
              && negb (IsSyncing (Data (NodeHealth (Entries h))))
              && (List.length (Errors (Data (NodeHealth (Entries h)))) =? 0)%nat)%bool).
  assert (Hok : ok = true <->
                Status h = "Healthy"
                /\ IsSyncing (Data (NodeHealth (Entries h))) = false
                /\ Errors (Data (NodeHealth (Entries h))) = []).
  { unfold ok.
    rewrite !andb_true_iff, String.eqb_eq, negb_true_iff, length_eqb_0.
    tauto. }
  destruct ok; simpl.
  - split.
    + split; [intros _; apply Hok; reflexivity | reflexivity].
    + intros H1 H2 H3. destruct Hok as [Hok _].
      destruct (Hok eq_refl) as [Hs _]. contradiction.
  - split.
    + split; [discriminate | intros H; apply Hok in H; discriminate].
    + intros _ _ _. eexists; reflexivity.
Qed.

(** The theorem at a document with status ["Degraded"]. *)
Lemma C9_nethermind_check_requires_status_Healthy_witness :
  exists e,
    result_of (Clients.CheckNethermindHealth
                 (Sample.nethermind_serving (document "Degraded" false [])))
    = Returns (false, Some e).
Proof.
  apply (C9_nethermind_check_requires_status_Healthy
           (Sample.nethermind_serving (document "Degraded" false []))
           (document "Degraded" false []));
    [reflexivity | reflexivity | reflexivity | discriminate].
Defined.

(** C4 (counterexample).  A document that is not syncing and lists no
    error, but whose status is ["Unhealthy"], is a failed check for
    [CheckNethermindHealth]: it does not pass. *)
Lemma C4_status_blocks_a_clean_document :
  syncing_of (document "Unhealthy" false []) = false /\
  errors_of (document "Unhealthy" false []) = [] /\
  result_of (Clients.CheckNethermindHealth
               (Sample.nethermind_serving (document "Unhealthy" false [])))
    = Returns (false, Some "Nethermind node is not healthy").
Proof. repeat split. Qed.

(** C4 (amended).  For every [/health] document of a Nethermind node
    that answers its other requests: [nodeHealth] (on [int] and on
    [uint64] measurements) is unhealthy if the syncing boolean is true,
    unhealthy if the error list is not empty whatever the boolean, and
    otherwise returns what the generic strategy returns for the same
    measurements; [CheckNethermindHealth] fails the check in the same two
    cases and otherwise passes exactly when the status string is
    ["Healthy"]. *)
Theorem C4_vendor_signal (uint64_of_float64 : float64 -> Z) (cfg : Config)
    (t : Z) (now_ : Time) (n : Z) (v : string) (h : NethermindHealth) :
  Substring "Nethermind" v ->
  let w := answering t now_ n (Decoded v) (Decoded h) in
  let generic := with_version w (Decoded "") in
  (syncing_of h = true ->
     result_of (Part004.nodeHealth cfg w) = Returns false
     /\ result_of (Part002.nodeHealth uint64_of_float64 cfg w) = Returns false
     /\ exists e, result_of (Clients.CheckNethermindHealth w)
                  = Returns (false, Some e))
  /\ (errors_of h <> [] ->
     result_of (Part004.nodeHealth cfg w) = Returns false
     /\ result_of (Part002.nodeHealth uint64_of_float64 cfg w) = Returns false
     /\ exists e, result_of (Clients.CheckNethermindHealth w)
                  = Returns (false, Some e))
  /\ (syncing_of h = false -> errors_of h = [] ->
     result_of (Part004.nodeHealth cfg w)
       = result_of (Part004.nodeHealth cfg generic)
     /\ result_of (Part002.nodeHealth uint64_of_float64 cfg w)
       = result_of (Part002.nodeHealth uint64_of_float64 cfg generic)
     /\ (result_of (Clients.CheckNethermindHealth w) = Returns (true, None)
         <-> Status h = "Healthy")).
Proof.
  intros Hv w generic. apply Contains_iff in Hv.
  subst w generic. unfold_evaluators. unfold answering, with_version. simpl.
  rewrite Hv. simpl.
  repeat split.
  - rewrite H. split_ifs; reflexivity.
  - rewrite H. split_ifs; reflexivity.
  - rewrite H, andb_false_r. simpl. eexists; reflexivity.
  - destruct (Errors _); [congruence|]. split_ifs; reflexivity.
  - destruct (Errors _); [congruence|]. split_ifs; reflexivity.
  - destruct (Errors _); [congruence|]. simpl. rewrite andb_false_r.
    eexists; reflexivity.
  - rewrite H, H0. simpl. split_ifs; reflexivity.
  - rewrite H, H0. simpl. split_ifs; reflexivity.
  - rewrite H, H0. simpl. rewrite !andb_true_r.
    destruct (String.eqb_spec (Status h) "Healthy"); simpl; congruence.
  - rewrite H, H0. simpl. rewrite !andb_true_r.
    intros ->. reflexivity.
Qed.

(** The theorem at the scenario of the specification: Nethermind/v1.25,
    a healthy document, 12 peers, a block 5 s old. *)
Lemma C4_vendor_signal_witness :
  result_of (Part004.nodeHealth Sample.cfg30
               (Sample.nethermind_serving Sample.healthy_document))
  = result_of (Part004.nodeHealth Sample.cfg30
                 (with_version (Sample.nethermind_serving Sample.healthy_document)
                    (Decoded ""))).
Proof.
  apply (C4_vendor_signal uint64_of_float64_amd64 Sample.cfg30
           Sample.block_time (Sample.clock_after 5000000000) 12
           "Nethermind/v1.25" Sample.healthy_document).
  - apply Contains_iff; reflexivity.
  - reflexivity.
  - reflexivity.
Defined.

(** The first two scenarios of the specification. *)
Example scenario_nethermind_healthy :
  Part004.readinessHandler Sample.cfg30
    (Sample.nethermind_serving Sample.healthy_document)
  = ([Sent EthGetBlockByNumber; Sent NetPeerCount; Sent Web3ClientVersion;
      Sent GetHealth; Logged LInfo "Node health check"], Returns 200).
Proof. reflexivity. Qed.

Example scenario_nethermind_syncing :
  Part004.readinessHandler Sample.cfg30
    (Sample.nethermind_serving (document "Healthy" true []))
  = ([Sent EthGetBlockByNumber; Sent NetPeerCount; Sent Web3ClientVersion;
      Sent GetHealth; Logged LError "Node is syncing";
      Logged LWarn "Node is not healthy"], Returns 503).
Proof. reflexivity. Qed.

(* ================================================================= *)
(** ** The polling loop *)

Lemma isHealthyOrDisabled_iff (status : string) :
  Poller.isHealthyOrDisabled status = true <-> passing status.
Proof.
  unfold Poller.isHealthyOrDisabled, passing.
  rewrite orb_true_iff, !String.eqb_eq. reflexivity.
Qed.

(** A turn of the loop always leaves a value, and the value does not
    depend on the one it found. *)
Lemma checkNodeHealth_turn_returns (p : Poller.Poll) (b : bool) :
  exists v, forall b',
    result_of (Poller.checkNodeHealth_turn p b') = Returns v.
Proof.
  destruct p; simpl; eexists; intros; reflexivity.
Qed.

(** After the loop has gone through its polls, the global holds what the
    last turn assigned. *)
Lemma checkNodeHealth_last (polls : list Poller.Poll) (p : Poller.Poll) (b : bool) :
  result_of (Poller.checkNodeHealth (polls ++ [p]) b)
  = result_of (Poller.checkNodeHealth_turn p b).
Proof.
  revert b. induction polls as [|q polls IH]; intros b; simpl.
  - rewrite result_of_bind.
    destruct (result_of (Poller.checkNodeHealth_turn p b)); reflexivity.
  - rewrite result_of_bind.
    destruct (checkNodeHealth_turn_returns q b) as [v Hq].
    rewrite Hq, IH.
    destruct (checkNodeHealth_turn_returns p b) as [u Hp].
    rewrite !Hp. reflexivity.
Qed.

(** C10.  In the polling variant the shared verdict is healthy after a
    turn of the loop if and only if the turn decoded a report and each of
    its four fields ([synced], [min_peer_count], [max_seconds_behind],
    [check_block]) reads ["HEALTHY"] or ["DISABLED"]; a field reported as
    ["DISABLED"] passes. *)
Theorem C10_verdict_of_the_poller
    (polls : list Poller.Poll) (p : Poller.Poll) (before : bool) :
  result_of (Poller.checkNodeHealth (polls ++ [p]) before) = Returns true
  <-> exists r,
        p = Poller.Report r
        /\ passing (Poller.Synced r)
        /\ passing (Poller.MinPeerCount r)
        /\ passing (Poller.MaxSecondsBehind r)
        /\ passing (Poller.CheckBlock r).
Proof.
  rewrite checkNodeHealth_last.
  destruct p as [e|e|e|r]; simpl.
  1-3: split; [discriminate | intros (r & H & _); discriminate].
  split.
  - intros H. injection H as H.
    rewrite !andb_true_iff, !isHealthyOrDisabled_iff in H.
    exists r. tauto.
  - intros (r' & Hr & H1 & H2 & H3 & H4). injection Hr as <-.
    apply isHealthyOrDisabled_iff in H1, H2, H3, H4.
    rewrite H1, H2, H3, H4. reflexivity.
Qed.

(** A report whose checks are all disabled makes the probe answer 200. *)
Example all_checks_disabled :
  result_of (Poller.checkNodeHealth
               [Poller.DoFailed "refused";
                Poller.Report {| Poller.CheckBlock := "DISABLED";
                                 Poller.MaxSecondsBehind := "DISABLED";
                                 Poller.MinPeerCount := "DISABLED";
                                 Poller.Synced := "DISABLED" |}] false)
  = Returns true.
Proof. reflexivity. Qed.

(* ================================================================= *)
(** ** Measurements *)

Lemma to_int64_small (x : Z) : - two63 <= x < two63 -> to_int64 x = x.
Proof.
  unfold to_int64, two63, two64. intros H.
  rewrite Z.mod_small; lia.
Qed.

Lemma Time_Sub_range (t u : Time) :
  minDuration <= Time_Sub t u <= maxDuration.
Proof.
  unfold Time_Sub, minDuration, maxDuration. cbv zeta.
  destruct (Z.ltb_spec (t - u) (- two63)); [unfold two63; lia|].
  destruct (Z.ltb_spec (two63 - 1) (t - u)); unfold two63 in *; lia.
Qed.

Lemma trunc_Seconds (d : Duration) : trunc (Seconds d) = Z.quot d 1000000000.
Proof. reflexivity. Qed.

Lemma trunc_Seconds_range (d : Duration) :
  minDuration <= d <= maxDuration ->
  -9223372036 <= trunc (Seconds d) <= 9223372036.
Proof.
  unfold minDuration, maxDuration. intros H. rewrite trunc_Seconds.
  assert (H1 : Z.quot (- two63) 1000000000 <= Z.quot d 1000000000)
    by (apply Z.quot_le_mono; lia).
  assert (H2 : Z.quot d 1000000000 <= Z.quot (two63 - 1) 1000000000)
    by (apply Z.quot_le_mono; lia).
  change (Z.quot (- two63) 1000000000) with (-9223372036) in H1.
  change (Z.quot (two63 - 1) 1000000000) with 9223372036 in H2.
  lia.
Qed.

(** The whole seconds of a [Duration] fit an [int]. *)
Lemma int_of_float64_Seconds (d : Duration) :
  minDuration <= d <= maxDuration ->
  int_of_float64 (Seconds d) = trunc (Seconds d).
Proof.
  intros H. apply trunc_Seconds_range in H.
  unfold int_of_float64. apply to_int64_small. unfold two63. lia.
Qed.

Lemma float64_gt_false_iff (x : float64) (m : Z) :
  float64_gt x (float64_of_int m) = false <-> Qle x (inject_Z m).
Proof.
  unfold float64_gt, float64_of_int.
  rewrite negb_false_iff. apply Qle_bool_iff.
Qed.

Lemma float64_gt_true_iff (x : float64) (m : Z) :
  float64_gt x (float64_of_int m) = true <-> Qlt (inject_Z m) x.
Proof.
  unfold float64_gt, float64_of_int.
  rewrite negb_true_iff, <- not_true_iff_false, Qle_bool_iff.
  split; [apply Qnot_le_lt | apply Qlt_not_le].
Qed.

(** A lag within the threshold is within it in whole seconds. *)
Lemma trunc_le_of_le (d : Duration) (m : Z) :
  Qle (Seconds d) (inject_Z m) -> trunc (Seconds d) <= m.
Proof.
  intros H. unfold Qle, Seconds, inject_Z in H; simpl in H.
  rewrite trunc_Seconds.
  rewrite <- (Z.quot_mul m 1000000000) by lia.
  apply Z.quot_le_mono; lia.
Qed.

(* ================================================================= *)
(** ** Failures of the requests *)

Lemma no_marker_in_empty :
  Contains "" "Nethermind" = false
  /\ Contains "" "erigon" = false
  /\ Contains "" "reth" = false.
Proof. repeat split. Qed.

Ltac no_marker :=
  let H1 := fresh in
  let H2 := fresh in
  let H3 := fresh in
  destruct no_marker_in_empty as (H1 & H2 & H3);
  rewrite ?H1, ?H2, ?H3; clear H1 H2 H3.

(** C7 (counterexample).  When the [web3_clientVersion] call fails,
    [DetectClientType] returns the empty string with the error: the kind
    it returns is not ["Unknown"]. *)
Lemma C7_failed_detection_returns_no_kind :
  result_of (Clients.DetectClientType Sample.version_lost)
    = Returns ("", Some "timeout")
  /\ result_of (Clients.DetectClientType Sample.version_lost)
    <> Returns ("Unknown", Some "timeout").
Proof. split; [reflexivity | discriminate]. Qed.

(** C7 (amended).  On every endpoint whose [web3_clientVersion] call
    fails (request, read or decoding), [DetectClientType] returns the
    empty client type together with the error.  The evaluator logs the
    error at info level and goes on: the empty type is not
    ["Nethermind"], so no [/health] request is sent and the verdict is
    the one the generic strategy gives for a client detected as
    Unknown. *)
Theorem C7_detection_failure_selects_generic
    (cfg : Config) (w : Node) (e : error) :
  failure_of (client_version w) = Some e ->
  result_of (Clients.DetectClientType w) = Returns ("", Some e)
  /\ result_of (Clients.DetectClientType (with_version w (Decoded "")))
     = Returns ("Unknown", None)
  /\ result_of (Part004.nodeHealth cfg w)
     = result_of (Part004.nodeHealth cfg (with_version w (Decoded "")))
  /\ ~ In GetHealth (queries (Part004.nodeHealth cfg w))
  /\ (In Web3ClientVersion (queries (Part004.nodeHealth cfg w)) ->
      In (LInfo, "Failed to detect the client type")
         (logs (Part004.nodeHealth cfg w))).
Proof.
  intros He.
  node_cases w; simpl in He; try discriminate He; injection He as ->;
    unfold_evaluators; unfold with_version, queries, logs; simpl;
    no_marker; simpl;
    (split; [reflexivity|]); (split; [reflexivity|]);
    split_ifs; simpl; intuition (try discriminate; try congruence).
Qed.

(** The theorem at a node in good shape whose version is lost: the
    verdict is healthy. *)
Lemma C7_detection_failure_selects_generic_witness :
  result_of (Part004.nodeHealth Sample.cfg30 Sample.version_lost)
  = result_of (Part004.nodeHealth Sample.cfg30
                 (with_version Sample.version_lost (Decoded ""))).
Proof.
  exact (proj1 (proj2 (proj2
           (C7_detection_failure_selects_generic
              Sample.cfg30 Sample.version_lost "timeout" eq_refl)))).
Defined.

(** C2 (counterexample).  The [web3_clientVersion] call of this
    evaluation fails with a transport error, and the evaluation reports
    healthy. *)
Lemma C2_healthy_despite_a_lost_version :
  failure_of (client_version Sample.version_lost) = Some "timeout"
  /\ result_of (Part004.nodeHealth Sample.cfg30 Sample.version_lost)
     = Returns true.
Proof. split; reflexivity. Qed.

(** C2 (amended).  In every evaluation of [nodeHealth], an error of the
    block request, of the peer request, or of the [/health] request of a
    Nethermind node makes the verdict unhealthy at once: no later request
    is sent.  An error of the [web3_clientVersion] call alone does not:
    the evaluation goes on as for an Unknown client. *)
Theorem C2_failed_requests (cfg : Config) (w : Node) :
  (block_query_fails w ->
     result_of (Part004.nodeHealth cfg w) = Returns false
     /\ ~ In NetPeerCount (queries (Part004.nodeHealth cfg w))
     /\ ~ In Web3ClientVersion (queries (Part004.nodeHealth cfg w))
     /\ ~ In GetHealth (queries (Part004.nodeHealth cfg w)))
  /\ (peer_query_fails w ->
     result_of (Part004.nodeHealth cfg w) = Returns false
     /\ ~ In Web3ClientVersion (queries (Part004.nodeHealth cfg w))
     /\ ~ In GetHealth (queries (Part004.nodeHealth cfg w)))
  /\ (nethermind_detected w -> failure_of (health w) <> None ->
     result_of (Part004.nodeHealth cfg w) = Returns false)
  /\ (failure_of (client_version w) <> None ->
     result_of (Part004.nodeHealth cfg w)
     = result_of (Part004.nodeHealth cfg (with_version w (Decoded "")))).
Proof.
  unfold block_query_fails, peer_query_fails, nethermind_detected.
  split; [|split; [|split]].
  - intros [[e H]|[e H]]; node_cases w; simpl in H; try discriminate H;
      unfold_evaluators; unfold queries; simpl; split_ifs; simpl;
      (split; [reflexivity | intuition discriminate]).
  - intros [[e H]|[e H]]; node_cases w; simpl in H; try discriminate H;
      unfold_evaluators; unfold queries; simpl; split_ifs; simpl;
      (split; [reflexivity | intuition discriminate]).
  - intros (v & Hv & Hn) Hh. apply Contains_iff in Hn.
    node_cases w; simpl in Hv; try discriminate Hv; injection Hv as ->;
      destruct hl; simpl in Hh; try congruence;
      unfold_evaluators; simpl; rewrite ?Hn; simpl; split_ifs; reflexivity.
  - intros Hv.
    node_cases w; simpl in Hv; try congruence;
      unfold_evaluators; unfold with_version; simpl; no_marker; simpl;
      split_ifs; reflexivity.
Qed.
(* ================================================================= *)
(** ** The composite evaluation *)

Section Composite.

Variable cfg : Config.

(** [nodeHealth] sends its requests in one order, and stops somewhere
    along it. *)
Lemma nodeHealth_order (w : Node) :
  exists rest,
    [EthGetBlockByNumber; NetPeerCount; Web3ClientVersion; GetHealth]
    = queries (Part004.nodeHealth cfg w) ++ rest.
Proof.
  node_cases w; destruct hl;
    unfold_evaluators; unfold queries; simpl; split_ifs;
    eexists; reflexivity.
Qed.

(** A healthy verdict of [nodeHealth] has seen the three checks pass. *)
Lemma nodeHealth_sound (w : Node) :
  result_of (Part004.nodeHealth cfg w) = Returns true ->
  (exists t, latest_block_time w = Ok t
             /\ trunc (lag_of (now w) t) <= max_seconds_behind cfg)
  /\ (exists n, peer_count w = Ok n /\ min_peers cfg <= to_int64 n)
  /\ vendor_passes w.
Proof.
  unfold vendor_passes, nethermind_detected.
  node_cases w; destruct hl;
    unfold_evaluators; simpl; split_ifs; intros H;
    try discriminate H; try (injection H as H);
    repeat match goal with
    | H : (_ && _)%bool = true |- _ => apply andb_true_iff in H; destruct H
    | H : (_ <=? _) = true |- _ => apply Z.leb_le in H
    end;
    rewrite ?int_of_float64_Seconds in * by apply Time_Sub_range;
    (split; [eexists; split; [reflexivity | assumption] |]);
    (split; [eexists; split; [reflexivity | assumption] |]);
    intros (v & Hv & Hn); try discriminate Hv;
    apply Contains_iff in Hn; injection Hv as <-;
    try congruence.
  all: eexists; split; [reflexivity|].
  all: match goal with
       | H : negb (_ =? 0)%nat = false |- _ =>
         apply negb_false_iff, length_eqb_0 in H
       end.
  all: split; assumption.
Qed.

(** When every request is answered and the three checks pass,
    [nodeHealth] is healthy. *)
Lemma nodeHealth_complete (w : Node) (t n : Z) :
  dial_for_block w = Ok tt -> latest_block_time w = Ok t ->
  dial_for_peers w = Ok tt -> peer_count w = Ok n ->
  Qle (lag_of (now w) t) (inject_Z (max_seconds_behind cfg)) ->
  min_peers cfg <= to_int64 n ->
  vendor_passes w ->
  result_of (Part004.nodeHealth cfg w) = Returns true.
Proof.
  unfold vendor_passes, nethermind_detected.
  intros Hdb Hbt Hdp Hpc Hlag Hn Hv.
  destruct w as [db bt nw dp pc cv hl]; simpl in *; subst.
  apply trunc_le_of_le in Hlag.
  rewrite <- int_of_float64_Seconds in Hlag by apply Time_Sub_range.
  apply Z.leb_le in Hlag, Hn.
  unfold_evaluators; simpl.
  destruct cv as [v|e|e|e]; simpl; split_ifs;
    try discriminate Hlag; try discriminate Hn; try reflexivity;
    try (destruct hl; simpl; split_ifs;
         try discriminate Hlag; try discriminate Hn;
         try (rewrite Hlag, Hn));
    try reflexivity;
    exfalso;
    (destruct Hv as (h & Hh & Hs & He);
     [ exists v; split; [reflexivity | apply Contains_iff; assumption]
     | try discriminate Hh; injection Hh as <-;
       unfold syncing_of, errors_of in *;
       try congruence;
       try (rewrite He in *; discriminate) ]).
Qed.

(** [checkNodeHealth] begins with the client and ends with the
    peers. *)
Lemma checkNodeHealth_order (w : Node) :
  follows_order
    [Web3ClientVersion; GetHealth; EthGetBlockByNumber; NetPeerCount]
    (queries (Part001.checkNodeHealth cfg w)) = true.
Proof.
  destruct w as [db bt nw dp pc cv hl].
  unfold_evaluators; unfold queries; answer_cases; reflexivity.
Qed.

Ltac passes_from_context :=
  unfold vendor_check_passes, nethermind_detected; simpl;
  let v' := fresh "v" in
  let Hv' := fresh "Hv" in
  let Hn' := fresh "Hn" in
  intros (v' & Hv' & Hn');
  first
    [ discriminate Hv'
    | injection Hv' as <-; apply Contains_iff in Hn';
      first
        [ congruence
        | eexists; split; [reflexivity|];
          unfold syncing_of, errors_of;
          match goal with
          | H : (_ && _ && _)%bool = true |- _ =>
            rewrite !andb_true_iff, String.eqb_eq, negb_true_iff,
              length_eqb_0 in H;
            tauto
          end ] ].

Lemma checkNodeHealth_vendor_stop (w : Node) :
  ~ vendor_check_passes w ->
  result_of (Part001.checkNodeHealth cfg w) = Returns false
  /\ ~ In EthGetBlockByNumber (queries (Part001.checkNodeHealth cfg w))
  /\ ~ In NetPeerCount (queries (Part001.checkNodeHealth cfg w)).
Proof.
  intros Hnot.
  destruct w as [db bt nw dp pc cv hl].
  unfold_evaluators; unfold queries; answer_cases;
    try (split; [reflexivity | simpl; intuition discriminate]);
    exfalso; apply Hnot; passes_from_context.
Qed.

Lemma checkNodeHealth_lag_stop (w : Node) (t : Z) :
  dial_for_block w = Ok tt -> latest_block_time w = Ok t ->
  Qlt (inject_Z (max_seconds_behind cfg)) (lag_of (now w) t) ->
  result_of (Part001.checkNodeHealth cfg w) = Returns false
  /\ ~ In NetPeerCount (queries (Part001.checkNodeHealth cfg w)).
Proof.
  intros Hdb Hbt Hlag.
  apply float64_gt_true_iff in Hlag.
  destruct w as [db bt nw dp pc cv hl]; simpl in *; subst.
  unfold lag_of in Hlag.
  destruct cv; destruct hl;
    unfold_evaluators; unfold queries; simpl; split_ifs;
    try discriminate Hlag;
    (split; [reflexivity | simpl; intuition discriminate]).
Qed.

Lemma checkNodeHealth_sound (w : Node) :
  result_of (Part001.checkNodeHealth cfg w) = Returns true ->
  (exists t, latest_block_time w = Ok t
             /\ Qle (lag_of (now w) t) (inject_Z (max_seconds_behind cfg)))
  /\ (forall n, peer_count w = Ok n -> viper_GetUint64 (min_peers cfg) <= n)
  /\ vendor_check_passes w.
Proof.
  node_cases w; destruct hl;
    unfold_evaluators; simpl; split_ifs; intros H;
    try discriminate H;
    (split; [eexists; split;
             [reflexivity | apply float64_gt_false_iff; assumption]|]);
    (split; [intros n' Hn'; try discriminate Hn'; injection Hn' as <-;
             apply Z.ltb_ge; assumption |]);
    passes_from_context.
Qed.

Lemma checkNodeHealth_complete (w : Node) (t n : Z) :
  dial_for_block w = Ok tt -> latest_block_time w = Ok t ->
  dial_for_peers w = Ok tt -> peer_count w = Ok n ->
  Qle (lag_of (now w) t) (inject_Z (max_seconds_behind cfg)) ->
  viper_GetUint64 (min_peers cfg) <= n ->
  vendor_check_passes w ->
  result_of (Part001.checkNodeHealth cfg w) = Returns true.
Proof.
  unfold vendor_check_passes, nethermind_detected.
  intros Hdb Hbt Hdp Hpc Hlag Hn Hv.
  apply float64_gt_false_iff in Hlag. apply Z.ltb_ge in Hn.
  destruct w as [db bt nw dp pc cv hl]; simpl in *; subst.
  unfold lag_of in Hlag.
  destruct cv as [v|e|e|e]; destruct hl as [h|e'|e'|e'];
    unfold_evaluators; simpl; split_ifs;
    try discriminate Hlag; try discriminate Hn; try reflexivity;
    exfalso;
    (destruct Hv as (h' & Hh & Hs & Hsync & He);
     [ exists v; split; [reflexivity | apply Contains_iff; assumption]
     | try discriminate Hh; injection Hh as <-;
       unfold syncing_of, errors_of in *;
       match goal with
       | H : (_ && _ && _)%bool = false |- _ =>
         rewrite Hs, Hsync, He in H; discriminate H
       end ]).
Qed.

End Composite.


(** The third scenario of the specification: an Erigon node with one
    peer against a minimum of three is unhealthy by its peers alone. *)
Example scenario_erigon_one_peer :
  result_of (Part004.nodeHealth Sample.cfg30
               (answering Sample.block_time (Sample.clock_after 5000000000) 1
                  (Decoded "erigon/2.0") (RequestFailed "404")))
  = Returns false.
Proof. reflexivity. Qed.

(* ================================================================= *)
(** ** Where the evaluators leave the specification *)

(** C6.  [nodeHealth] at a lag of 30.5 s against a limit of 30 s, with
    12 peers and an Erigon client: the lag is over its bound, the rule of
    the specification says unhealthy, [blockDelta] logs that the node is
    too far behind, and the verdict is healthy, the comparison being made
    on the whole seconds. *)
Theorem C6_lag_over_the_bound_is_healthy :
  Qlt (inject_Z (max_seconds_behind Sample.cfg30))
      (lag_of (now (Sample.erigon_lagging 30500000000)) Sample.block_time)
  /\ Spec.verdict Sample.cfg30
       (lag_of (now (Sample.erigon_lagging 30500000000)) Sample.block_time)
       12 Spec.UnknownSignal = false
  /\ result_of (Part004.nodeHealth Sample.cfg30
                  (Sample.erigon_lagging 30500000000)) = Returns true
  /\ In (LError, "Node is too far behind")
        (logs (Part004.nodeHealth Sample.cfg30
                 (Sample.erigon_lagging 30500000000))).
Proof.
  split; [reflexivity|]. split; [reflexivity|]. split; [reflexivity|].
  simpl. auto.
Qed.

(** On [uint64] measurements more lag can turn unhealthy into healthy:
    a block 5 s ahead of the clock is unhealthy, a block 5 s behind it is
    healthy (amd64). *)
Example uint64_lag_is_not_monotone :
  result_of (Part002.nodeHealth uint64_of_float64_amd64 Sample.cfg30
               (Sample.erigon_lagging (-5000000000))) = Returns false
  /\ result_of (Part002.nodeHealth uint64_of_float64_amd64 Sample.cfg30
                  (Sample.erigon_lagging 5000000000)) = Returns true.
Proof. split; reflexivity. Qed.

(** C5.  [nodeHealth] on [uint64] measurements, at a block whose time is
    5 s later than the clock, limit 60 s, 12 peers, Erigon client: the
    lag is negative, [blockDelta] converts it to 2^64 - 5 (amd64), and
    the verdict is unhealthy.  On [int] measurements the same node is
    healthy. *)
Theorem C5_clock_skew_is_unhealthy_on_uint64 :
  Qlt (lag_of (now (Sample.erigon_lagging (-5000000000))) Sample.block_time)
      (inject_Z 0)
  /\ result_of (Part002.blockDelta uint64_of_float64_amd64 Sample.cfg60
                  (Sample.erigon_lagging (-5000000000)))
     = Returns (18446744073709551611, None)
  /\ result_of (Part002.nodeHealth uint64_of_float64_amd64 Sample.cfg60
                  (Sample.erigon_lagging (-5000000000))) = Returns false
  /\ result_of (Part004.nodeHealth Sample.cfg60
                  (Sample.erigon_lagging (-5000000000))) = Returns true.
Proof. repeat split. Qed.

(** C8.  [main] at a start where the node cannot be reached and the port
    is free: the error is logged, [resp] is [nil], and the process ends
    in a panic before it listens.  And the handler built on
    [checkBlockDelta], at a node that refuses the block request: it logs
    the error and panics, no status is written. *)
Theorem C8_unreachable_node_ends_the_process :
  Part004.listen Sample.node_unreachable = Part004.Serves
  /\ Part004.main Sample.node_unreachable
     = ([Logged LError "Failed to perform a new request"], Panics)
  /\ Part001.readinessHandler Sample.cfg30 Sample.block_refused
     = ([Sent Web3ClientVersion; Sent EthGetBlockByNumber;
         Logged LError "Failed to retrieve the latest block"], Panics).
Proof. repeat split. Qed.

(** *** Clock skew *)



(** The same node on arm64, where the conversion of a negative number
    gives 0, is healthy: the verdict depends on the platform. *)
Example clock_skew_on_arm64 :
  result_of (Part002.nodeHealth uint64_of_float64_arm64 Sample.cfg60
               (Sample.erigon_lagging (-5000000000))) = Returns true.
Proof. reflexivity. Qed.

(** *** The start of the process *)

(** X19.  [main] panics exactly when the first request cannot be built
    or the first probe fails; otherwise it reaches [ListenAndServe], and
    then exits with status 1 exactly when the port cannot be bound and
    serves otherwise. *)
Lemma main_outcomes (s : Part004.Startup) :
  (result_of (Part004.main s) = Panics
   <-> (exists e, Part004.new_request s = Err e)
       \/ (exists e, Part004.first_probe s = Err e))
  /\ (result_of (Part004.main s) = Returns (Part004.Exit 1)
      <-> Part004.new_request s = Ok tt /\ Part004.first_probe s = Ok tt
          /\ exists e, Part004.listen s = Part004.BindFailed e)
  /\ (result_of (Part004.main s) = Returns Part004.Serving
      <-> Part004.new_request s = Ok tt /\ Part004.first_probe s = Ok tt
          /\ Part004.listen s = Part004.Serves).
Proof.
  destruct s as [[[]|e1] [[]|e2] [e3|]]; unfold Part004.main; simpl;
    (split; [|split]); split; intros H0;
    try discriminate H0; try reflexivity; eauto;
    repeat match goal with
    | H : _ \/ _ |- _ => destruct H
    | H : _ /\ _ |- _ => destruct H
    | H : exists _, _ |- _ => destruct H
    end;
    try discriminate; eauto.
Qed.

(* ================================================================= *)
(** ** Further properties of the code *)

(** *** Package [clients] *)

(** X1.  [DetectClientType] sends exactly one request and logs nothing.
    Its error is the failure of the exchange; without an error the name
    is one of ["Nethermind"], ["Erigon"], ["Reth"], ["Unknown"], and with
    an error it is the empty string. *)
Theorem DetectClientType_names (w : Node) :
  exists name err,
    Clients.DetectClientType w
    = ([Sent Web3ClientVersion], Returns (name, err))
    /\ err = failure_of (client_version w)
    /\ (err = None ->
        name = "Nethermind" \/ name = "Erigon" \/ name = "Reth"
        \/ name = "Unknown")
    /\ (err <> None -> name = "").
Proof.
  unfold Clients.DetectClientType.
  destruct (client_version w) as [v|e|e|e]; simpl;
    try (do 2 eexists; split; [reflexivity|]; split; [reflexivity|];
         split; [discriminate | reflexivity]).
  destruct (Contains v "Nethermind");
    [|destruct (Contains v "erigon"); [|destruct (Contains v "reth")]];
    simpl; do 2 eexists; split; try reflexivity;
    (split; [reflexivity|]); (split; [auto | congruence]).
Qed.

(** X2.  The two [DetectClientType] return the same error and agree on
    whether the client is Nethermind; where the earlier one says
    ["Unknown"], the later one says ["Erigon"], ["Reth"] or
    ["Unknown"]. *)
Theorem detectors_agree_on_Nethermind (w : Node) :
  exists name name0 err,
    result_of (Clients.DetectClientType w) = Returns (name, err)
    /\ result_of (Part000.DetectClientType w) = Returns (name0, err)
    /\ (name = "Nethermind" <-> name0 = "Nethermind")
    /\ (name0 = "Unknown" <->
        name = "Erigon" \/ name = "Reth" \/ name = "Unknown").
Proof.
  unfold Clients.DetectClientType, Part000.DetectClientType.
  destruct (client_version w) as [v|e|e|e]; simpl;
    try (do 3 eexists; repeat split; intros H; try discriminate H;
         destruct H as [H|[H|H]]; discriminate H).
  destruct (Contains v "Nethermind");
    [|destruct (Contains v "erigon"); [|destruct (Contains v "reth")]];
    simpl; do 3 eexists; repeat split; intros H; try discriminate H; auto;
    destruct H as [H|[H|H]]; discriminate H.
Qed.

(** X3.  In the result of [CheckNethermindHealth] the boolean is true
    exactly when the error is [nil].  One request is sent, and a line is
    logged exactly when the body could not be read or decoded. *)
Theorem CheckNethermindHealth_agrees (w : Node) :
  exists ok err,
    result_of (Clients.CheckNethermindHealth w) = Returns (ok, err)
    /\ (ok = true <-> err = None)
    /\ queries (Clients.CheckNethermindHealth w) = [GetHealth]
    /\ (logs (Clients.CheckNethermindHealth w) <> [] <->
        exists e, health w = ReadFailed e \/ health w = DecodeFailed e).
Proof.
  unfold Clients.CheckNethermindHealth, queries, logs.
  destruct (health w) as [h|e|e|e]; simpl.
  - match goal with
    | |- context [if ?c then _ else _] => destruct c
    end; simpl; do 2 eexists;
      (split; [reflexivity|]);
      (split; [split; intros H; first [reflexivity | discriminate H]|]);
      (split; [reflexivity|]);
      (split; [intros H; exfalso; apply H; reflexivity
              | intros [e [H|H]]; discriminate H]).
  - do 2 eexists; split; [reflexivity|].
    split; [split; intros H; first [reflexivity | discriminate H]|]. split; [reflexivity|].
    split; [intros H; exfalso; apply H; reflexivity
           | intros [e' [H|H]]; discriminate H].
  - do 2 eexists; split; [reflexivity|].
    split; [split; intros H; first [reflexivity | discriminate H]|]. split; [reflexivity|].
    split; [eauto | discriminate].
  - do 2 eexists; split; [reflexivity|].
    split; [split; intros H; first [reflexivity | discriminate H]|]. split; [reflexivity|].
    split; [eauto | discriminate].
Qed.

(** *** The evaluator on the block time alone *)

Section BlockTimeFacts.

Variable ParseInt : string -> result Z.
Variable cfg : Config.


(** X5.  The handler on the block time never panics: it answers 200 when
    [checkNodeHealth] is healthy and 503 otherwise.  At most one request
    is sent, none when the request could not be built, and every
    unhealthy verdict leaves exactly one log line, a healthy one none. *)
Theorem BlockTime_handler (o : BlockTime.Observation) :
  exists healthy,
    result_of (BlockTime.checkNodeHealth ParseInt cfg o) = Returns healthy
    /\ result_of (BlockTime.readinessHandler ParseInt cfg o)
       = Returns (if healthy then 200 else 503)
    /\ queries (BlockTime.readinessHandler ParseInt cfg o)
       = match BlockTime.fetch o with
         | BlockTime.MarshalFailed _ => []
         | BlockTime.NewRequestFailed _ => []
         | _ => [EthGetBlockByNumber]
         end
    /\ List.length (logs (BlockTime.readinessHandler ParseInt cfg o))
       = if healthy then 0%nat else 1%nat.
Proof.
  unfold BlockTime.readinessHandler, BlockTime.checkNodeHealth,
    BlockTime.getLatestBlock, queries, logs.
  destruct o as [f c]; simpl.
  destruct f as [e|e|e|e|e|b]; simpl;
    try (eexists; repeat split; reflexivity).
  destruct (ParseInt (BlockTime.Timestamp b)) as [t|e]; simpl;
    [destruct (float64_gt _ _); simpl|];
    eexists; repeat split; reflexivity.
Qed.

End BlockTimeFacts.

(** Case analysis on the answers an evaluation looks at, one answer at a
    time. *)
Ltac observe_cases :=
  repeat (simpl;
    match goal with
    | u : unit |- _ => destruct u
    | |- context [go_ptr ?x] => is_var x; destruct x
    | |- context [go_val _ ?x] => is_var x; destruct x
    | |- context [match ?x with
                  | Decoded _ => _
                  | RequestFailed _ => _
                  | ReadFailed _ => _
                  | DecodeFailed _ => _
                  end] => is_var x; destruct x
    | |- context [if ?b then _ else _] => destruct b eqn:?
    end).

(** *** The evaluator on [int] measurements *)

Section IntEvaluator.

Variable cfg : Config.

Lemma nodeHealth_healthy_dials (w : Node) :
  result_of (Part004.nodeHealth cfg w) = Returns true ->
  dial_for_block w = Ok tt /\ dial_for_peers w = Ok tt.
Proof.
  destruct w as [db bt nw dp pc cv hl].
  destruct db as [[]|e1]; [|intros H; discriminate H].
  destruct dp as [[]|e2]; [intros _; split; reflexivity|].
  unfold_evaluators; observe_cases; intros H; discriminate H.
Qed.

Lemma nodeHealth_complete_whole_seconds (w : Node) (t n : Z) :
  dial_for_block w = Ok tt -> latest_block_time w = Ok t ->
  dial_for_peers w = Ok tt -> peer_count w = Ok n ->
  trunc (lag_of (now w) t) <= max_seconds_behind cfg ->
  min_peers cfg <= to_int64 n ->
  vendor_passes w ->
  result_of (Part004.nodeHealth cfg w) = Returns true.
Proof.
  unfold vendor_passes, nethermind_detected.
  intros Hdb Hbt Hdp Hpc Hlag Hn Hv.
  destruct w as [db bt nw dp pc cv hl]; simpl in *; subst.
  unfold lag_of in Hlag.
  rewrite <- int_of_float64_Seconds in Hlag by apply Time_Sub_range.
  apply Z.leb_le in Hlag, Hn.
  unfold_evaluators; simpl.
  destruct cv as [v|e|e|e]; simpl; split_ifs;
    try discriminate Hlag; try discriminate Hn; try reflexivity;
    try (destruct hl; simpl; split_ifs;
         try discriminate Hlag; try discriminate Hn;
         try (rewrite Hlag, Hn));
    try reflexivity;
    exfalso;
    (destruct Hv as (h & Hh & Hs & He);
     [ exists v; split; [reflexivity | apply Contains_iff; assumption]
     | try discriminate Hh; injection Hh as <-;
       unfold syncing_of, errors_of in *;
       try congruence;
       try (rewrite He in *; discriminate) ]).
Qed.


Lemma nodeHealth_runs (w : Node) :
  exists l b,
    Part004.nodeHealth cfg w = (l, Returns b)
    /\ forall msg, ~ In (Logged LWarn msg) l.
Proof.
  destruct w as [db bt nw dp pc cv hl].
  unfold_evaluators; observe_cases;
    do 2 eexists; (split; [reflexivity|]);
    intros msg H; simpl in H; intuition discriminate.
Qed.

(** X7.  [nodeHealth] never panics, whatever the node answers, and
    [readinessHandler] always writes a status: 200 when the verdict is
    healthy and 503 otherwise.  The warning that the node is not healthy
    is logged exactly with a 503. *)
Theorem readinessHandler_answers (w : Node) :
  exists healthy,
    result_of (Part004.nodeHealth cfg w) = Returns healthy
    /\ result_of (Part004.readinessHandler cfg w)
       = Returns (if healthy then 200 else 503)
    /\ (In (LWarn, "Node is not healthy")
           (logs (Part004.readinessHandler cfg w))
        <-> healthy = false).
Proof.
  destruct (nodeHealth_runs w) as (l & b & Hrun & Hl).
  exists b. unfold Part004.readinessHandler, logs. rewrite Hrun.
  split; [reflexivity|].
  destruct b; simpl.
  - split; [reflexivity|]. rewrite app_nil_r. split; [|discriminate].
    intros H. apply in_flat_map in H. destruct H as (x & Hx & Hin).
    destruct x as [q|lv msg]; simpl in Hin; [contradiction|].
    destruct Hin as [Hin|[]]. injection Hin as -> ->.
    elim (Hl _ Hx).
  - split; [reflexivity|]. split; [reflexivity|]. intros _.
    rewrite flat_map_app. apply in_or_app. right. simpl. auto.
Qed.


(** X9.  [checkNodePeers] returns an error exactly when the connection
    or the peer request failed, and then the value 0.  When the count is
    answered it is returned with a [nil] error whatever [min-peers] is,
    and nothing is logged. *)
Theorem checkNodePeers_reports (w : Node) :
  (peer_query_fails w ->
     exists e, result_of (Part004.checkNodePeers cfg w) = Returns (0, Some e))
  /\ (forall n,
      dial_for_peers w = Ok tt -> peer_count w = Ok n ->
      Part004.checkNodePeers cfg w
      = ([Sent NetPeerCount], Returns (to_int64 n, None))).
Proof.
  unfold peer_query_fails.
  destruct w as [db bt nw dp pc cv hl]; simpl.
  destruct dp as [[]|e1], pc as [n0|e2];
    unfold Part004.checkNodePeers; simpl.
  - split; [intros [[e H]|[e H]]; discriminate H|].
    intros n _ Hn. injection Hn as <-.
    destruct (to_int64 n0 <? min_peers cfg); reflexivity.
  - split; [intros _; eexists; reflexivity|].
    intros n _ Hn; discriminate Hn.
  - split; [intros _; eexists; reflexivity|].
    intros n Hd; discriminate Hd.
  - split; [intros _; eexists; reflexivity|].
    intros n Hd; discriminate Hd.
Qed.

(** X10.  [nodeHealth] asks for the [/health] document exactly when the
    block and the peer count were answered and the version string
    carries the Nethermind marker; no other client ever gets that
    request. *)
Theorem health_requested_iff (w : Node) :
  In GetHealth (queries (Part004.nodeHealth cfg w))
  <-> dial_for_block w = Ok tt
      /\ (exists t, latest_block_time w = Ok t)
      /\ dial_for_peers w = Ok tt
      /\ (exists n, peer_count w = Ok n)
      /\ nethermind_detected w.
Proof.
  unfold nethermind_detected, queries.
  destruct w as [db bt nw dp pc cv hl].
  unfold_evaluators; observe_cases; split;
    try solve [intros H; simpl in H; intuition discriminate];
    try solve [intros (H1 & (t & H2) & H3 & (n & H4) & (v & H5 & H6));
               simpl in *; try discriminate;
               injection H5 as <-; apply Contains_iff in H6; congruence];
    try solve [intros _; simpl; auto 10];
    intros _;
    (split; [reflexivity|]); (split; [eexists; reflexivity|]);
    (split; [reflexivity|]); (split; [eexists; reflexivity|]);
    (eexists; split; [reflexivity | apply Contains_iff; assumption]).
Qed.

End IntEvaluator.

(** *** The evaluator on [uint64] measurements *)

Lemma to_uint64_small (x : Z) : 0 <= x < two64 -> to_uint64 x = x.
Proof. intros H. unfold to_uint64. apply Z.mod_small. exact H. Qed.



(** X13.  When no measurement and no threshold is negative (and the peer
    count is below 2^63), [nodeHealth] on [uint64] measurements returns
    the verdict of [nodeHealth] on [int] measurements for the same
    node. *)
Theorem uint64_and_int_agree (cfg : Config) (w : Node) :
  0 <= max_seconds_behind cfg < two63 ->
  0 <= min_peers cfg < two63 ->
  (forall t, latest_block_time w = Ok t -> 0 <= trunc (lag_of (now w) t)) ->
  (forall n, peer_count w = Ok n -> 0 <= n < two63) ->
  result_of (Part002.nodeHealth uint64_of_float64_amd64 cfg w)
  = result_of (Part004.nodeHealth cfg w).
Proof.
  intros Hmax Hmin Hlag Hn.
  destruct w as [db bt nw dp pc cv hl]; simpl in Hlag, Hn.
  destruct db as [[]|e1], bt as [t|e2], dp as [[]|e3], pc as [n|e4];
    try (unfold_evaluators; observe_cases; reflexivity).
  specialize (Hlag t eq_refl). specialize (Hn n eq_refl).
  unfold lag_of in Hlag.
  assert (Hr := trunc_Seconds_range _
                  (Time_Sub_range nw (time_Unix (to_int64 t) 0))).
  assert (E1 : to_uint64 (min_peers cfg) = min_peers cfg)
    by (apply to_uint64_small; unfold two63, two64 in *; lia).
  assert (E2 : to_uint64 (max_seconds_behind cfg) = max_seconds_behind cfg)
    by (apply to_uint64_small; unfold two63, two64 in *; lia).
  assert (E3 : to_int64 n = n) by (apply to_int64_small; lia).
  assert (E4 : uint64_of_float64_amd64
                 (Seconds (Time_Sub nw (time_Unix (to_int64 t) 0)))
               = int_of_float64
                   (Seconds (Time_Sub nw (time_Unix (to_int64 t) 0)))).
  { rewrite int_of_float64_Seconds by apply Time_Sub_range.
    unfold uint64_of_float64_amd64. apply to_uint64_small.
    unfold two64. lia. }
  unfold_evaluators; simpl. rewrite ?E1, ?E2, ?E3, ?E4.
  observe_cases; reflexivity.
Qed.

(** The theorem at an Erigon node whose block is 5 s old. *)
Lemma uint64_and_int_agree_witness :
  result_of (Part002.nodeHealth uint64_of_float64_amd64 Sample.cfg30
               (Sample.erigon_lagging 5000000000))
  = result_of (Part004.nodeHealth Sample.cfg30
                 (Sample.erigon_lagging 5000000000)).
Proof.
  apply (uint64_and_int_agree Sample.cfg30 (Sample.erigon_lagging 5000000000)).
  - vm_compute; split; [discriminate | reflexivity].
  - vm_compute; split; [discriminate | reflexivity].
  - intros t H; injection H as <-; vm_compute; discriminate.
  - intros n H; injection H as <-; vm_compute;
      split; [discriminate | reflexivity].
Defined.

(** X14.  On [uint64] measurements a negative [min-peers] does not switch
    the peer check off: it is converted to a number of 2^63 or more,
    and no node with fewer peers than that is ever healthy, whatever the
    platform. *)
Theorem negative_min_peers_on_uint64
    (uint64_of_float64 : float64 -> Z) (cfg : Config) (w : Node) :
  - two63 <= min_peers cfg < 0 ->
  (forall n, peer_count w = Ok n -> n < two63) ->
  result_of (Part002.nodeHealth uint64_of_float64 cfg w) <> Returns true.
Proof.
  intros Hmin Hn.
  destruct w as [db bt nw dp pc cv hl]; simpl in Hn.
  assert (E : forall n, pc = Ok n ->
              (to_uint64 (min_peers cfg) <=? n) = false).
  { intros n Hpc. specialize (Hn n Hpc). apply Z.leb_gt.
    unfold to_uint64.
    rewrite <- (Z.mod_add _ 1 two64) by (unfold two64; lia).
    rewrite Z.mod_small; unfold two63, two64 in *; lia. }
  destruct pc as [n|e4];
    [specialize (E n eq_refl)|];
    unfold_evaluators; simpl;
    destruct db as [[]|e1], bt as [t|e2], dp as [[]|e3]; simpl;
    rewrite ?E; observe_cases; simpl; rewrite ?E; simpl;
    intros H; discriminate H.
Qed.

(** The theorem at [min-peers] -1 and a node with 12 peers. *)
Lemma negative_min_peers_on_uint64_witness :
  result_of (Part002.nodeHealth uint64_of_float64_amd64
               {| max_seconds_behind := 30; min_peers := -1 |}
               (Sample.erigon_lagging 5000000000))
  <> Returns true.
Proof.
  apply (negative_min_peers_on_uint64 uint64_of_float64_amd64
           {| max_seconds_behind := 30; min_peers := -1 |}
           (Sample.erigon_lagging 5000000000)).
  - vm_compute; split; [discriminate | reflexivity].
  - intros n H; injection H as <-; reflexivity.
Defined.

(** X20.  [nodeHealth] on [uint64] measurements never panics either,
    on any platform, and sends its requests in the order block, peer
    count, client version, [/health], stopping somewhere along it. *)
Theorem uint64_evaluator_runs
    (uint64_of_float64 : float64 -> Z) (cfg : Config) (w : Node) :
  (exists healthy,
     result_of (Part002.nodeHealth uint64_of_float64 cfg w) = Returns healthy)
  /\ exists rest,
       [EthGetBlockByNumber; NetPeerCount; Web3ClientVersion; GetHealth]
       = queries (Part002.nodeHealth uint64_of_float64 cfg w) ++ rest.
Proof.
  unfold queries.
  destruct w as [db bt nw dp pc cv hl].
  unfold_evaluators; observe_cases;
    (split; eexists; reflexivity).
Qed.

(** *** The evaluator made of boolean checks *)



(** From the tests an unfolded evaluation has made: the check of
    [CheckNethermindHealth] passes. *)
Ltac vendor_check_here :=
  unfold vendor_check_passes, nethermind_detected; simpl;
  let v' := fresh "v" in
  let Hv' := fresh "Hv" in
  let Hn' := fresh "Hn" in
  intros (v' & Hv' & Hn');
  first
    [ discriminate Hv'
    | injection Hv' as <-; apply Contains_iff in Hn';
      first
        [ congruence
        | eexists; split; [reflexivity|];
          unfold syncing_of, errors_of;
          match goal with
          | H : (_ && _ && _)%bool = true |- _ =>
            rewrite !andb_true_iff, String.eqb_eq, negb_true_iff,
              length_eqb_0 in H;
            tauto
          end ] ].

(** From the tests an unfolded evaluation has made: the check of
    [CheckNethermindHealth] cannot pass. *)
Ltac vendor_check_refuted Hv :=
  unfold vendor_check_passes, nethermind_detected in Hv; simpl in Hv;
  let h := fresh "h" in
  let Hh := fresh "Hh" in
  let Hs := fresh "Hs" in
  let Hsync := fresh "Hsync" in
  let He := fresh "He" in
  destruct Hv as (h & Hh & Hs & Hsync & He);
  [ eexists; split; [reflexivity | apply Contains_iff; assumption]
  | try discriminate Hh; injection Hh as <-;
    unfold syncing_of, errors_of in *;
    match goal with
    | H : (_ && _ && _)%bool = false |- _ =>
      rewrite Hs, Hsync, He in H; discriminate H
    end ].


Lemma checkNodeHealth_healthy_answers (cfg : Config) (w : Node) :
  0 < min_peers cfg ->
  result_of (Part001.checkNodeHealth cfg w) = Returns true ->
  dial_for_block w = Ok tt /\ dial_for_peers w = Ok tt
  /\ exists n, peer_count w = Ok n.
Proof.
  intros Hmin.
  destruct w as [db bt nw dp pc cv hl].
  unfold_evaluators; observe_cases; intros H; try discriminate H;
    try solve [repeat split; eexists; reflexivity];
    exfalso;
    match goal with
    | Hz : (0 <? viper_GetUint64 _) = false |- _ =>
      apply Z.ltb_ge in Hz; unfold viper_GetUint64 in Hz;
      destruct (Z.ltb_spec (min_peers cfg) 0); lia
    end.
Qed.

(** X17.  With a positive [min-peers] (and a peer count below 2^63),
    every node the boolean evaluator [checkNodeHealth] calls healthy is
    healthy for [nodeHealth] on [int] measurements too: the boolean
    evaluator is the stricter one. *)
Theorem boolean_evaluator_is_stricter (cfg : Config) (w : Node) :
  0 < min_peers cfg ->
  (forall n, peer_count w = Ok n -> n < two63) ->
  result_of (Part001.checkNodeHealth cfg w) = Returns true ->
  result_of (Part004.nodeHealth cfg w) = Returns true.
Proof.
  intros Hmin Hrange H.
  destruct (checkNodeHealth_healthy_answers cfg w Hmin H)
    as (Hdb & Hdp & n & Hn).
  destruct (checkNodeHealth_sound cfg w H) as ((t & Ht & Hlag) & Hpeers & Hv).
  specialize (Hpeers n Hn). specialize (Hrange n Hn).
  unfold viper_GetUint64 in Hpeers.
  destruct (Z.ltb_spec (min_peers cfg) 0); [lia|].
  apply (nodeHealth_complete cfg w t n); try assumption.
  - rewrite to_int64_small; unfold two63 in *; lia.
  - intros Hd. destruct (Hv Hd) as (h & Hh & _ & Hs & He).
    exists h. auto.
Qed.

(** The theorem at an Erigon node with 12 peers and a block 5 s old. *)
Lemma boolean_evaluator_is_stricter_witness :
  result_of (Part004.nodeHealth Sample.cfg30
               (Sample.erigon_lagging 5000000000)) = Returns true.
Proof.
  apply (boolean_evaluator_is_stricter Sample.cfg30
           (Sample.erigon_lagging 5000000000)).
  - reflexivity.
  - intros n H; injection H as <-; reflexivity.
  - reflexivity.
Defined.

(** *** The polling loop *)

Lemma events_bind {A B : Type} (m : M A) (k : A -> M B) :
  events (bind m k) =
  match result_of m with
  | Returns a => events m ++ events (k a)
  | Panics => events m
  end.
Proof.
  destruct m as [l [a|]]; simpl; [|reflexivity].
  destruct (k a); reflexivity.
Qed.

(** X18.  The polling loop sends one request for every turn whose
    request could be built and logs one line for every turn that
    failed, whatever the value of the verdict before. *)
Theorem poller_requests_and_logs (polls : list Poller.Poll) (before : bool) :
  List.length (queries (Poller.checkNodeHealth polls before))
  = List.length
      (filter (fun p => match p with
                        | Poller.NewRequestFailed _ => false
                        | _ => true
                        end) polls)
  /\ List.length (logs (Poller.checkNodeHealth polls before))
     = List.length
         (filter (fun p => match p with
                           | Poller.Report _ => false
                           | _ => true
                           end) polls).
Proof.
  unfold queries, logs. revert before.
  induction polls as [|p polls IH]; intros before; [split; reflexivity|].
  simpl Poller.checkNodeHealth. rewrite events_bind.
  destruct (checkNodeHealth_turn_returns p before) as [v Hv].
  rewrite Hv, !flat_map_app, !length_app.
  destruct (IH v) as [IHq IHl]. rewrite IHq, IHl.
  destruct p; simpl; split; reflexivity.
Qed.
